(** * Blades / fllib: adversary hooks, configuration objects and the Algorithm trainable

A shallow embedding of
  - [src/blades/adversaries/adversary.py]  (Adversary, AdversaryConfig)
  - [src/fllib/algorithms/algorithm.py]    (Algorithm)
Python objects that are mutated and shared (clients, adversary configs)
live in explicit stores; exceptions are values of [Exn] carried by the
[Outcome] monad; dictionaries with string keys are [gmap string _]. *)

From Stdlib Require Import Ascii.
From stdpp Require Import gmap strings list fin_maps.

#[local] Set Warnings "-register-all".
#[local] Open Scope Z_scope.

(** Object references. *)
Abbreviation loc := positive (only parsing).

(** ** Python values, exceptions and the exception monad *)
Module Py.

Inductive Exn : Type :=
| ValueError (msg : string)
| KeyError (key : string)
| AttributeError (name : string)
| TypeError (msg : string)
| ZeroDivisionError
| RuntimeError (msg : string)
| AssertionError (msg : string)
| OSError (path : string)
| ExternalError (origin : string).

Inductive Outcome (A : Type) : Type :=
| Ok (a : A)
| Raise (e : Exn).
Arguments Ok {A} a.
Arguments Raise {A} e.

#[export] Instance Outcome_ret : MRet Outcome := fun A a => Ok a.
#[export] Instance Outcome_bind : MBind Outcome :=
fun A B f m => match m with Ok a => f a | Raise e => Raise e end.

(** Calls into code that is not part of the repository sources either
  return a value or fail; a failure surfaces as [ExternalError]. *)
Definition external {A : Type} (origin : string) (r : option A) : Outcome A :=
match r with Some a => Ok a | None => Raise (ExternalError origin) end.

(** The values that configuration dictionaries and attributes hold. *)
Inductive PyVal : Type :=
| PyNone
| PyBool (b : bool)
| PyInt (z : Z)
| PyStr (s : string)
| PyClass (name : string)
| PyBoundMethod (name : string)
| PyDict (d : gmap string PyVal).

(** [bool(v)] *)
Definition truthy (v : PyVal) : bool :=
match v with
| PyNone => false
| PyBool b => b
| PyInt z => negb (z =? 0)
| PyStr s => negb (String.eqb s "")
| PyClass _ | PyBoundMethod _ => true
| PyDict d => negb (bool_decide (d = ∅))
end.

(** The integer an int-like value denotes ([bool] is a subclass of [int]). *)
Definition as_int (v : PyVal) : option Z :=
match v with
| PyInt z => Some z
| PyBool b => Some (Z.b2z b)
| _ => None
end.

(** [len(v)] *)
Definition len (v : PyVal) : Outcome Z :=
match v with
| PyDict d => Ok (Z.of_nat (size d))
| PyStr s => Ok (Z.of_nat (String.length s))
| _ => Raise (TypeError "object has no len()")
end.

(** [a % b] on Python integers: floor modulo, the sign follows the divisor. *)
Definition py_mod (a b : Z) : Outcome Z :=
if b =? 0 then Raise ZeroDivisionError else Ok (a `mod` b).

(** [d[key]] *)
Definition getitem (d : gmap string PyVal) (key : string) : Outcome PyVal :=
match d !! key with Some v => Ok v | None => Raise (KeyError key) end.

End Py.
Export Py.

(** ** torch: flat tensors and [torch.vstack] *)
Module Torch.

(** A pseudo-gradient is a flat (1-D) tensor: the list of its entries. *)
Abbreviation Tensor Scalar := (list Scalar) (only parsing).

Section Vstack.
Context {Scalar : Type}.

Definition same_width (t u : Tensor Scalar) : bool :=
  bool_decide (length u = length t).

(** [torch.vstack(tensors)]: every 1-D tensor becomes one row; the rows
    must agree in length; an empty sequence is refused. *)
Definition vstack (tensors : list (Tensor Scalar)) : Outcome (list (Tensor Scalar)) :=
  match tensors with
  | [] => Raise (RuntimeError "vstack expects a non-empty TensorList")
  | t :: rest =>
      if forallb (same_width t) rest then Ok tensors
      else Raise (RuntimeError "Sizes of tensors must match except in dimension 0")
  end.
End Vstack.

End Torch.
Import Torch.

(** ** Clients and the client manager *)
Module Client.

Section Client.
Context {ClientId : Type}.

(** Modelled from the spec: the Client class is not among the sources.
    "each Client carries a boolean is_malicious flag"; [local_training]
    is the client's independent local-training path. *)
Record t : Type := mk {
  client_id : ClientId;
  is_malicious : bool;
  local_training : bool;
}.

(** Modelled from the spec: Client.to_malicious is not among the sources.
    It "flips [the] client ... into malicious mode"; the keyword argument
    says whether the client keeps training on its own. *)
Definition to_malicious (self : t) (local_training : bool) : t :=
  {| client_id := client_id self;
     is_malicious := true;
     local_training := local_training |}.
End Client.
Arguments t : clear implicits.

End Client.

Module ClientManager.

Section ClientManager.
Context {ClientId : Type} `{Countable ClientId}.

(** Modelled from the spec: ClientManager.get_client_by_id is not among
    the sources. The manager is a "mapping from client id to Client
    object"; the objects themselves live in the heap, where the
    adversary's list of clients can alias them. *)
Definition get_client_by_id (self : gmap ClientId loc)
    (heap : gmap loc (Client.t ClientId)) (id : ClientId)
  : Outcome (Client.t ClientId) :=
  match self !! id with
  | Some l =>
      match heap !! l with
      | Some client => Ok client
      | None => Raise (KeyError "client")
      end
  | None => Raise (KeyError "client")
  end.
End ClientManager.

End ClientManager.

(** ** AlgorithmConfig *)
Module AlgorithmConfig.

(** Modelled from the spec: fllib.algorithms.algorithm_config is not among
  the sources. A config is a "mutable key-value property bag" that can be
  frozen. *)
Record t : Type := mk {
attrs : gmap string PyVal;
is_frozen : bool;
}.

Definition getattr (self : t) (name : string) : Outcome PyVal :=
match attrs self !! name with
| Some v => Ok v
| None => Raise (AttributeError name)
end.

(** Modelled from the spec: "once frozen, no setter may succeed". *)
Definition setattr (self : t) (key : string) (value : PyVal) : Outcome t :=
if is_frozen self then Raise (AttributeError key)
else Ok {| attrs := <[key := value]> (attrs self); is_frozen := false |}.

(** Modelled from the spec: "for every key in the incoming dict, set the
  same-named attribute on the object". *)
Definition update_from_dict (self : t) (config_dict : gmap string PyVal) : Outcome t :=
map_fold (fun key value acc => self' ← acc; setattr self' key value)
         (Ok self) config_dict.

(** Modelled from the spec: "to_dict (deep copy of all attributes)". *)
Definition to_dict (self : t) : gmap string PyVal := attrs self.

(** Modelled from the spec: "validate() performing whatever cross-field
  checks a concrete subclass defines (base class: none)". *)
Definition validate (self : t) : Outcome unit := Ok tt.

(** Modelled from the spec: "freeze() making further attribute writes fail". *)
Definition freeze (self : t) : t :=
{| attrs := attrs self; is_frozen := true |}.

End AlgorithmConfig.

(** ** posixpath and the file system *)
Module Os.

Fixpoint ends_with_sep (path : string) : bool :=
  match path with
  | EmptyString => false
  | String c EmptyString => bool_decide (c = "/"%char)
  | String _ rest => ends_with_sep rest
  end.

Definition starts_with_sep (path : string) : bool :=
  match path with
  | String c _ => bool_decide (c = "/"%char)
  | EmptyString => false
  end.

(** [os.path.join(a, b)] of posixpath, for one component [b]. *)
Definition path_join (a b : string) : string :=
  if starts_with_sep b then b
  else if bool_decide (a = "") || ends_with_sep a then a +:+ b
  else a +:+ "/" +:+ b.

End Os.

(** ** fllib.algorithms.algorithm *)
Module Algorithm.

(** How a caller may pass a configuration: nothing, a plain dictionary, an
    AlgorithmConfig, or an object of another class that offers [to_dict()]. *)
Inductive ConfigArg : Type :=
| NoConfig
| ConfigDict (d : gmap string PyVal)
| ConfigObject (c : AlgorithmConfig.t)
| ForeignConfig (to_dict : gmap string PyVal).

(** What a checkpoint file holds: the pickled state mapping; other files are
    raw data. *)
Inductive File : Type :=
| Pickle (state : gmap string AlgorithmConfig.t)
| Raw (data : string).

(** ray's PlacementGroupFactory, as constructed. *)
Record PlacementGroupFactory : Type := {
  bundles : list (gmap string PyVal);
  strategy : PyVal;
}.

(** A list comprehension [[body for _ in range(n)]]: the body is evaluated
    once per element. *)
Fixpoint comprehension {B : Type} (n : nat) (body : Outcome B) : Outcome (list B) :=
  match n with
  | O => Ok []
  | S n' => b ← body; rest ← comprehension n' body; Ok (b :: rest)
  end.

Section Algorithm.
Context {Scalar : Type} {ClientId : Type} `{Countable ClientId}.

(** The dataset interface: "exposing client_ids (ordered sequence of ids)". *)
Record Dataset : Type := {
  client_ids : list ClientId;
}.

(** A per-client result of a round: a record "containing at least a
    pseudo-gradient tensor and the client id". [result_id = None] is a result
    without the key "id"; [result_update] is [None] when the key
    CLIENT_UPDATE is absent and [Some None] when it is bound to None. *)
Record Result : Type := {
  result_id : option ClientId;
  result_update : option (option (Tensor Scalar));
}.

(** The instance attributes of an Algorithm. An attribute that has not been
    assigned yet is [None]; reading it raises AttributeError. *)
Record t : Type := mk {
  config : AlgorithmConfig.t;
  iteration : Z;
  dataset : option Dataset;
  client_manager : option (gmap ClientId loc);
  local_results : option (list Result);
}.

Definition attr {A : Type} (name : string) (field : option A) : Outcome A :=
  match field with Some a => Ok a | None => Raise (AttributeError name) end.

(** The methods a subclass overrides, and whether it left the
    [training_iteration] property of the Trainable alone. *)
Record Class : Type := {
  cls_name : string;
  cls_training_step : t -> Outcome (gmap string PyVal * t);
  cls_evaluate : t -> Outcome (option (gmap string PyVal) * t);
  cls_training_iteration_is_int : bool;
}.

(** What is outside the sources: the default attributes of a fresh
    AlgorithmConfig, its [get_client_config], the dataset catalog, the client
    manager class and the operating system's answer to [open(path, "wb")]. *)
Context (default_attrs : gmap string PyVal).
Context (get_client_config : AlgorithmConfig.t -> option PyVal).
Context (get_dataset : PyVal -> option Dataset).
Context (client_manager_cls :
  list ClientId -> PyVal -> gmap loc (Client.t ClientId) ->
  option (gmap ClientId loc * gmap loc (Client.t ClientId))).
Context (can_open_wb : gmap string File -> string -> bool).

(** [get_default_config] of the class Algorithm returns [AlgorithmConfig()],
    never a dict: the branches of [__init__] and [setup] for a default config
    that is a dict are not reached and are left out. *)
Definition get_default_config : AlgorithmConfig.t :=
  AlgorithmConfig.mk default_attrs false.

(** [setup(self, config)]; the heap is threaded through because the client
    manager allocates the client objects. *)
Definition setup (self : t) (config_arg : ConfigArg)
    (heap : gmap loc (Client.t ClientId))
  : Outcome (t * gmap loc (Client.t ClientId)) :=
  (* if not isinstance(config, AlgorithmConfig): assert isinstance(config, dict) ... *)
  self ← match config_arg with
         | ConfigObject _ => Ok self
         | ConfigDict d =>
             let config_obj := get_default_config in
             config_obj ← AlgorithmConfig.update_from_dict config_obj d;
             Ok (mk config_obj (iteration self) (dataset self)
                    (client_manager self) (local_results self))
         | NoConfig | ForeignConfig _ => Raise (AssertionError "")
         end;
  dataset_config ← AlgorithmConfig.getattr (config self) "dataset_config";
  n ← len dataset_config;
  dataset ← (if 0 <? n
             then external "DatasetCatalog.get_dataset" (get_dataset dataset_config)
             else Raise (ValueError "Dataset config must be provided"));
  client_config ← external "get_client_config" (get_client_config (config self));
  '(manager, heap) ← external "client_manager_cls"
                       (client_manager_cls (client_ids dataset) client_config heap);
  Ok (mk (config self) (iteration self) (Some dataset) (Some manager)
         (local_results self), heap).

(** ray's Trainable.__init__: stores the config, starts the iteration
    counter at 0 and calls [setup] with the config. *)
Definition Trainable_init (config : AlgorithmConfig.t)
    (heap : gmap loc (Client.t ClientId))
  : Outcome (t * gmap loc (Client.t ClientId)) :=
  setup (mk config 0 None None None) (ConfigObject config) heap.

Definition __init__ (cls : Class) (config_arg : ConfigArg)
    (heap : gmap loc (Client.t ClientId))
  : Outcome (t * gmap loc (Client.t ClientId)) :=
  (* config = config or self.get_default_config() *)
  let config_arg :=
    match config_arg with
    | NoConfig => ConfigObject get_default_config
    | ConfigDict d => if bool_decide (d = ∅) then ConfigObject get_default_config
                      else config_arg
    | _ => config_arg
    end in
  config ← match config_arg with
           | ConfigDict d =>
               let default_config := get_default_config in
               AlgorithmConfig.update_from_dict default_config d
           | ConfigObject c =>
               (* isinstance(config, type(default_config)) holds *)
               Ok c
           | ForeignConfig to_dict =>
               let default_config := get_default_config in
               AlgorithmConfig.update_from_dict default_config to_dict
           | NoConfig => Ok get_default_config
           end;
  algo_class ← AlgorithmConfig.getattr config "algo_class";
  config ← match algo_class with
           | PyNone => AlgorithmConfig.setattr config "algo_class" (PyClass (cls_name cls))
           | _ => Ok config
           end;
  _ ← AlgorithmConfig.validate config;
  let config := AlgorithmConfig.freeze config in
  '(self, heap) ← Trainable_init config heap;
  if cls_training_iteration_is_int cls then Ok (self, heap)
  else Raise (AssertionError "Your Algorithm's `training_iteration` seems to be overridden").

(** [dict.update(other)]: [None] is not iterable. *)
Definition dict_update (results : gmap string PyVal) (other : option (gmap string PyVal))
  : Outcome (gmap string PyVal) :=
  match other with
  | Some metrics => Ok (metrics ∪ results)
  | None => Raise (TypeError "'NoneType' object is not iterable")
  end.

Definition step (cls : Class) (self : t) : Outcome (gmap string PyVal * t) :=
  evaluation_interval ← AlgorithmConfig.getattr (config self) "evaluation_interval";
  evaluate_this_iter ←
    match evaluation_interval with
    | PyNone => Ok false
    | _ =>
        match as_int evaluation_interval with
        | Some e => r ← py_mod (iteration self + 1) e; Ok (r =? 0)
        | None => Raise (TypeError "unsupported operand type(s) for %")
        end
    end;
  '(results, self) ← cls_training_step cls self;
  if evaluate_this_iter : bool then
    '(metrics, self) ← cls_evaluate cls self;
    results ← dict_update results metrics;
    Ok (results, self)
  else Ok (results, self).

Definition training_step (self : t) : Outcome (gmap string PyVal * t) :=
  Ok (∅, self).

Definition evaluate (self : t) : Outcome (option (gmap string PyVal) * t) :=
  Ok (None, self).

(** The class Algorithm itself, nothing overridden. *)
Definition Algorithm_cls : Class := {|
  cls_name := "Algorithm";
  cls_training_step := training_step;
  cls_evaluate := evaluate;
  cls_training_iteration_is_int := true;
|}.

Definition default_resource_request (config : gmap string PyVal)
  : Outcome PlacementGroupFactory :=
  (* dict(cls.get_default_config(), **config) *)
  let cf := config ∪ AlgorithmConfig.to_dict get_default_config in
  cpu ← getitem cf "num_cpus_for_driver";
  fake_gpus ← getitem cf "_fake_gpus";
  gpu ← (if truthy fake_gpus then Ok (PyInt 0) else getitem cf "num_gpus_for_driver");
  let local_worker : gmap string PyVal := <["GPU" := gpu]> {[ "CPU" := cpu ]} in
  num_remote_workers ← getitem cf "num_remote_workers";
  count ← match as_int num_remote_workers with
          | Some n => Ok (Z.to_nat n)
          | None => Raise (TypeError "object cannot be interpreted as an integer")
          end;
  remote_workers ← comprehension count
    (cpu ← getitem cf "num_cpus_per_worker";
     gpu ← getitem cf "num_gpus_per_worker";
     custom ← getitem cf "custom_resources_per_worker";
     match custom with
     | PyDict custom => Ok (custom ∪ <["GPU" := gpu]> {[ "CPU" := cpu ]})
     | _ => Raise (TypeError "argument after ** must be a mapping")
     end);
  let bundles := [local_worker] ++ remote_workers in
  Ok {| bundles := bundles;
        strategy := default (PyStr "PACK") (config !! "placement_strategy") |}.

Definition __getstate__ (self : t) : gmap string AlgorithmConfig.t :=
  {[ "config" := config self ]}.

(** [with open(state_file, "wb") as f: pickle.dump(state, f)] *)
Definition open_and_dump (fs : gmap string File) (state_file : string)
    (state : gmap string AlgorithmConfig.t) : Outcome (gmap string File) :=
  if can_open_wb fs state_file then Ok (<[state_file := Pickle state]> fs)
  else Raise (OSError state_file).

Definition save_checkpoint (self : t) (checkpoint_dir : string) (fs : gmap string File)
  : Outcome (string * gmap string File) :=
  let state := __getstate__ self in
  let state_file := Os.path_join checkpoint_dir "algorithm_state.pkl" in
  fs ← open_and_dump fs state_file state;
  Ok (checkpoint_dir, fs).

End Algorithm.

Arguments Dataset : clear implicits.
Arguments Result : clear implicits.
Arguments t Scalar ClientId {_ _}.
Arguments Class Scalar ClientId {_ _}.

End Algorithm.

(** ** blades.adversaries.adversary: Adversary *)
Module Adversary.

Section Adversary.
Context {Scalar : Type} {ClientId : Type} `{Countable ClientId}.

(** An adversary refers to the client objects it owns; it does not hold
    copies of them. *)
Record t : Type := mk {
  clients : list loc;
  global_config : PyVal;
}.

Definition __init__ (clients : list loc) (global_config : option PyVal)
    (malicious_client_cls : option PyVal) : t :=
  mk clients (default PyNone global_config).

(** [result.get(CLIENT_UPDATE, None)] *)
Definition get_update (result : Algorithm.Result Scalar ClientId)
  : option (Tensor Scalar) :=
  match Algorithm.result_update result with
  | Some value => value
  | None => None
  end.

(** [result["id"]] *)
Definition get_id (result : Algorithm.Result Scalar ClientId) : Outcome ClientId :=
  match Algorithm.result_id result with
  | Some id => Ok id
  | None => Raise (KeyError "id")
  end.

Definition no_benign_updates : Exn :=
  ValueError
    "No benign updates found. To use this adversary,you must have at least one benign client.".

(** The loop of [get_benign_updates], with the list [updates] it appends to. *)
Fixpoint collect_updates (algorithm : Algorithm.t Scalar ClientId)
    (heap : gmap loc (Client.t ClientId))
    (results : list (Algorithm.Result Scalar ClientId))
    (updates : list (Tensor Scalar)) : Outcome (list (Tensor Scalar)) :=
  match results with
  | [] => Ok updates
  | result :: results' =>
      let psudo_grad := get_update result in
      manager ← Algorithm.attr "client_manager" (Algorithm.client_manager algorithm);
      id ← get_id result;
      client ← ClientManager.get_client_by_id manager heap id;
      match psudo_grad with
      | Some grad =>
          if negb (Client.is_malicious client)
          then collect_updates algorithm heap results' (updates ++ [grad])
          else collect_updates algorithm heap results' updates
      | None => collect_updates algorithm heap results' updates
      end
  end.

Definition get_benign_updates (self : t) (algorithm : Algorithm.t Scalar ClientId)
    (heap : gmap loc (Client.t ClientId)) : Outcome (list (Tensor Scalar)) :=
  local_results ← Algorithm.attr "local_results" (Algorithm.local_results algorithm);
  updates ← collect_updates algorithm heap local_results [];
  match updates with
  | [] => Raise no_benign_updates
  | _ => vstack updates
  end.

Definition on_algorithm_start (self : t) (algorithm : Algorithm.t Scalar ClientId)
    (heap : gmap loc (Client.t ClientId)) : gmap loc (Client.t ClientId) :=
  foldl (fun heap client => alter (fun c => Client.to_malicious c false) client heap)
        heap (clients self).

Definition on_local_round_end (self : t) (algorithm : Algorithm.t Scalar ClientId)
    (heap : gmap loc (Client.t ClientId)) : gmap loc (Client.t ClientId) :=
  heap.

End Adversary.

End Adversary.

(** ** blades.adversaries.adversary: AdversaryConfig *)
Module AdversaryConfig.

(** An object: the class it is an instance of and its instance dictionary. *)
Record Instance : Type := {
  inst_class : string;
  inst_dict : gmap string PyVal;
}.

(** The functions the class body defines. *)
Definition methods : list string :=
  ["__init__"; "to_dict"; "build"; "update_from_dict"].

(** The two classes of the file, with the functions their bodies define;
    both are plain classes: no [__slots__], no [__setattr__], no
    [__getattribute__], no docstring. Any other class is outside the
    sources. *)
Definition class_body (cls : string) : option (list string) :=
  if String.eqb cls "AdversaryConfig" then Some methods
  else if String.eqb cls "Adversary"
  then Some ["__init__"; "get_benign_updates"; "on_algorithm_start";
             "on_local_round_end"]
  else None.

(** The attributes that the type machinery guards with data descriptors:
    they are looked up and assigned before the instance dictionary is. *)
Definition guarded : list string := ["__class__"; "__dict__"; "__weakref__"].

(** What every instance inherits from [object] (CPython 3.11), the guarded
    attributes, [__doc__] and [__init__] apart. *)
Definition object_methods : list string :=
  ["__delattr__"; "__dir__"; "__eq__"; "__format__"; "__ge__";
   "__getattribute__"; "__getstate__"; "__gt__"; "__hash__";
   "__init_subclass__"; "__le__"; "__lt__"; "__ne__"; "__new__";
   "__reduce__"; "__reduce_ex__"; "__repr__"; "__setattr__"; "__sizeof__";
   "__str__"; "__subclasshook__"].

(** [setattr(self, key, value)] through [object.__setattr__]: a guarded name
    goes to its descriptor ([__class__] takes a class, and either class of
    the file will do, both being plain; [__dict__] takes a
    dictionary and replaces the instance dictionary; [__weakref__] is not
    writable), every other name is written into the instance dictionary. *)
Definition setattr (store : gmap loc Instance) (self : loc)
    (key : string) (value : PyVal) : Outcome (gmap loc Instance) :=
  match store !! self with
  | None => Raise (ExternalError "no such object")
  | Some inst =>
      match class_body (inst_class inst) with
      | None => Raise (ExternalError "class outside the sources")
      | Some _ =>
          if String.eqb key "__class__" then
            match value with
            | PyClass cls =>
                match class_body cls with
                | Some _ =>
                    Ok (<[self := {| inst_class := cls;
                                     inst_dict := inst_dict inst |}]> store)
                | None => Raise (ExternalError "class outside the sources")
                end
            | _ => Raise (TypeError "__class__ must be set to a class")
            end
          else if String.eqb key "__dict__" then
            match value with
            | PyDict d =>
                Ok (<[self := {| inst_class := inst_class inst; inst_dict := d |}]> store)
            | _ => Raise (TypeError "__dict__ must be set to a dictionary")
            end
          else if String.eqb key "__weakref__" then
            Raise (AttributeError "__weakref__")
          else
            Ok (<[self := {| inst_class := inst_class inst;
                             inst_dict := <[key := value]> (inst_dict inst) |}]> store)
      end
  end.

(** [self.name] through [object.__getattribute__]: the guarded attributes
    first, then the instance dictionary, then the class body and what
    [object] provides. *)
Definition getattr (store : gmap loc Instance) (self : loc)
    (name : string) : Outcome PyVal :=
  match store !! self with
  | None => Raise (ExternalError "no such object")
  | Some inst =>
      match class_body (inst_class inst) with
      | None => Raise (ExternalError "class outside the sources")
      | Some body =>
          if String.eqb name "__class__" then Ok (PyClass (inst_class inst))
          else if String.eqb name "__dict__" then Ok (PyDict (inst_dict inst))
          else if String.eqb name "__weakref__" then Ok PyNone
          else
            match inst_dict inst !! name with
            | Some v => Ok v
            | None =>
                if bool_decide (name ∈ body) then Ok (PyBoundMethod name)
                else if String.eqb name "__module__"
                then Ok (PyStr "blades.adversaries.adversary")
                else if String.eqb name "__doc__" then Ok PyNone
                else if bool_decide (name ∈ object_methods)
                then Ok (PyBoundMethod name)
                else Raise (AttributeError name)
            end
      end
  end.

(** [AdversaryConfig(adversary_cls, config)]: allocates the object, then runs
    the two assignments of [__init__]. *)
Definition __init__ (store : gmap loc Instance)
    (adversary_cls : option PyVal) (config : option PyVal)
  : Outcome (loc * gmap loc Instance) :=
  let self := fresh (dom store) in
  let store := <[self := {| inst_class := "AdversaryConfig"; inst_dict := ∅ |}]> store in
  store ← setattr store self "adversary_class"
            (default (PyClass "Adversary") adversary_cls);
  store ← setattr store self "global_config" (default PyNone config);
  Ok (self, store).

(** [copy.deepcopy(vars(self))] *)
Definition to_dict (store : gmap loc Instance) (self : loc) : gmap string PyVal :=
  default ∅ (inst_dict <$> store !! self).

(** The loop [for key, value in config_dict.items(): setattr(self, key,
    value)], over the items in insertion order. *)
Fixpoint assign_items (store : gmap loc Instance) (self : loc)
    (items : list (string * PyVal)) : Outcome (gmap loc Instance) :=
  match items with
  | [] => Ok store
  | (key, value) :: items' =>
      store ← setattr store self key value;
      assign_items store self items'
  end.

(** [config_dict] is the dictionary as the list of its items, in insertion
    order. *)
Definition update_from_dict (store : gmap loc Instance) (self : loc)
    (config_dict : list (string * PyVal)) : Outcome (loc * gmap loc Instance) :=
  store ← assign_items store self config_dict;
  Ok (self, store).

Section Build.
Context {A : Type}.

(** ray's [from_config(cls, config_dict, clients=clients)] is outside the
    sources: a parameter that receives the class, the remaining dictionary
    and the clients. *)
Context (from_config : PyVal -> gmap string PyVal -> list loc -> Outcome A).

(** [build(self, clients)]: [self.to_dict] is looked up on the object, so an
    instance attribute of that name is what gets called, if it can be
    called; [pop] raises KeyError when the key is missing and removes it
    from the copy that [to_dict] made. *)
Definition build (store : gmap loc Instance) (self : loc)
    (clients : list loc) : Outcome A :=
  _ ← getattr store self "to_dict";
  match store !! self ≫= fun inst => inst_dict inst !! "to_dict" with
  | Some (PyClass _) | Some (PyBoundMethod _) =>
      Raise (ExternalError "call outside the sources")
  | Some _ => Raise (TypeError "object is not callable")
  | None =>
      let config_dict := to_dict store self in
      match config_dict !! "adversary_class" with
      | Some cls => from_config cls (delete "adversary_class" config_dict) clients
      | None => Raise (KeyError "adversary_class")
      end
  end.

End Build.

End AdversaryConfig.

(** ** Vocabulary for a round of per-client results *)
Module Round.

Section Round.
Context {Scalar : Type} {ClientId : Type} `{Countable ClientId}.

(** The client object a result belongs to: the one the manager files under
    the result's id. *)
Definition owner (manager : gmap ClientId loc) (heap : gmap loc (Client.t ClientId))
    (result : Algorithm.Result Scalar ClientId) : option (Client.t ClientId) :=
  id ← Algorithm.result_id result; l ← manager !! id; heap !! l.

Definition malicious (manager : gmap ClientId loc) (heap : gmap loc (Client.t ClientId))
    (result : Algorithm.Result Scalar ClientId) : bool :=
  match owner manager heap result with
  | Some client => Client.is_malicious client
  | None => false
  end.

Definition benign (manager : gmap ClientId loc) (heap : gmap loc (Client.t ClientId))
    (result : Algorithm.Result Scalar ClientId) : bool :=
  match owner manager heap result with
  | Some client => negb (Client.is_malicious client)
  | None => false
  end.

(** M: how many of the results belong to malicious clients. *)
Definition num_malicious (manager : gmap ClientId loc)
    (heap : gmap loc (Client.t ClientId))
    (results : list (Algorithm.Result Scalar ClientId)) : nat :=
  length (List.filter (malicious manager heap) results).

(** The results of benign clients, in iteration order. *)
Definition benign_results (manager : gmap ClientId loc)
    (heap : gmap loc (Client.t ClientId))
    (results : list (Algorithm.Result Scalar ClientId))
  : list (Algorithm.Result Scalar ClientId) :=
  List.filter (benign manager heap) results.

(** The pseudo-gradients that benign clients actually recorded, in iteration
    order. *)
Definition contributed (manager : gmap ClientId loc)
    (heap : gmap loc (Client.t ClientId))
    (results : list (Algorithm.Result Scalar ClientId)) : list (Tensor Scalar) :=
  omap (fun result =>
          if benign manager heap result then Adversary.get_update result else None)
       results.

(** The specification's reading of [get_benign_updates]: with N results, M
    of them malicious, a stack of N - M rows, one per benign result and in
    their order; an error when N - M = 0. *)
Definition stacks_every_benign_result (self : Adversary.t)
    (algorithm : Algorithm.t Scalar ClientId) (heap : gmap loc (Client.t ClientId))
    (manager : gmap ClientId loc)
    (results : list (Algorithm.Result Scalar ClientId)) : Prop :=
  let N := length results in
  let M := num_malicious manager heap results in
  ((N - M)%nat <> O ->
   exists rows,
     Adversary.get_benign_updates self algorithm heap = Ok rows /\
     length rows = (N - M)%nat /\
     Some <$> rows = Adversary.get_update <$> benign_results manager heap results) /\
  ((N - M)%nat = O ->
   Adversary.get_benign_updates self algorithm heap = Raise Adversary.no_benign_updates).

(** Whether the result names a client object of the adversary's own list. *)
Definition owned (self : Adversary.t) (manager : gmap ClientId loc)
    (result : Algorithm.Result Scalar ClientId) : bool :=
  match Algorithm.result_id result ≫= (fun id => manager !! id) with
  | Some l => bool_decide (l ∈ Adversary.clients self)
  | None => false
  end.

(** Two results that differ at most in what a malicious client recorded. *)
Definition same_benign_view (manager : gmap ClientId loc)
    (heap : gmap loc (Client.t ClientId))
    (r r' : Algorithm.Result Scalar ClientId) : Prop :=
  Algorithm.result_id r = Algorithm.result_id r' /\
  (malicious manager heap r = true \/
   Adversary.get_update r = Adversary.get_update r').

End Round.

End Round.

(** ** The specification's statements about configuration objects *)
Module ConfigSpec.

(** [c.name] resolves to a method of the class. *)
Definition offers_method (store : gmap loc AdversaryConfig.Instance) (c : loc)
    (name : string) : Prop :=
  AdversaryConfig.getattr store c name = Ok (PyBoundMethod name).

(** The write [setattr(c, k, v)] raises. *)
Definition write_fails (store : gmap loc AdversaryConfig.Instance) (c : loc)
    (k : string) (v : PyVal) : Prop :=
  exists e, AdversaryConfig.setattr store c k v = Raise e.

(** The specification's reading for an AdversaryConfig: it "supports a
    freeze() operation making further attribute writes fail", to be called
    after validate(). *)
Definition adversary_config_freezes (store : gmap loc AdversaryConfig.Instance)
    (c : loc) : Prop :=
  offers_method store c "validate" /\
  offers_method store c "freeze" /\
  forall k v, write_fails store c k v.

(** The specification's reading of [update_from_dict({k: v})]: the call
    returns [c], and [c.k] then reads [v]. *)
Definition update_sets (store : gmap loc AdversaryConfig.Instance) (c : loc)
    (k : string) (v : PyVal) : Prop :=
  exists store',
    AdversaryConfig.update_from_dict store c [(k, v)] = Ok (c, store') /\
    AdversaryConfig.getattr store' c k = Ok v.

End ConfigSpec.

(** ** The specification's statements about [step] *)
Module StepSpec.

Section StepSpec.
Context {Scalar : Type} {ClientId : Type} `{Countable ClientId}.

(** "e is not None and (i+1) mod e == 0" *)
Definition evaluation_due (i : Z) (e : option Z) : Prop :=
  match e with
  | Some e => (i + 1) `mod` e = 0
  | None => False
  end.

(** The attribute value of a configured interval. *)
Definition interval_value (e : option Z) : PyVal :=
  match e with
  | Some e => PyInt e
  | None => PyNone
  end.

(** Training, then evaluation, then the merge of the metrics. *)
Definition train_and_evaluate (cls : Algorithm.Class Scalar ClientId)
    (self : Algorithm.t Scalar ClientId)
  : Outcome (gmap string PyVal * Algorithm.t Scalar ClientId) :=
  '(results, self) ← Algorithm.cls_training_step cls self;
  '(metrics, self) ← Algorithm.cls_evaluate cls self;
  results ← Algorithm.dict_update results metrics;
  Ok (results, self).

(** The specification's reading of [step]: when the evaluation is due, the
    call returns the training results with the evaluation's metrics merged
    in; in all other cases it is [training_step()] unchanged. *)
Definition evaluates_exactly_when_due (cls : Algorithm.Class Scalar ClientId)
    (self : Algorithm.t Scalar ClientId) (e : option Z) : Prop :=
  (evaluation_due (Algorithm.iteration self) e ->
   forall results self1 metrics self2,
     Algorithm.cls_training_step cls self = Ok (results, self1) ->
     Algorithm.cls_evaluate cls self1 = Ok (metrics, self2) ->
     exists merged,
       Algorithm.step cls self = Ok (merged, self2) /\
       forall m, metrics = Some m -> merged = m ∪ results) /\
  (~ evaluation_due (Algorithm.iteration self) e ->
   Algorithm.step cls self = Algorithm.cls_training_step cls self).

End StepSpec.

End StepSpec.

(** ** The specification's statements about the resource request *)
Module ResourceSpec.

(** A bundle "annotated with CPU and GPU counts and with custom resources". *)
Definition annotated (custom bundle : gmap string PyVal) : Prop :=
  is_Some (bundle !! "CPU") /\ is_Some (bundle !! "GPU") /\ custom ⊆ bundle.

(** The specification's reading of [default_resource_request]: one driver
    bundle, then one bundle per remote worker, each bundle annotated; the
    strategy is the config's, "PACK" by default. *)
Definition one_bundle_per_worker (default_attrs config : gmap string PyVal) : Prop :=
  let cf := config ∪ default_attrs in
  exists request custom n driver workers,
    Algorithm.default_resource_request default_attrs config = Ok request /\
    cf !! "custom_resources_per_worker" = Some (PyDict custom) /\
    cf !! "num_remote_workers" = Some (PyInt n) /\
    Algorithm.bundles request = driver :: workers /\
    Z.of_nat (length workers) = n /\
    Forall (annotated custom) (driver :: workers) /\
    Algorithm.strategy request
    = default (PyStr "PACK") (config !! "placement_strategy").

End ResourceSpec.

(** ** The specification's statements about [setup] *)
Module SetupSpec.

Section SetupSpec.
Context {Scalar : Type} {ClientId : Type} `{Countable ClientId}.
Context (default_attrs : gmap string PyVal).
Context (get_client_config : AlgorithmConfig.t -> option PyVal).
Context (get_dataset : PyVal -> option (Algorithm.Dataset ClientId)).
Context (client_manager_cls :
  list ClientId -> PyVal -> gmap loc (Client.t ClientId) ->
  option (gmap ClientId loc * gmap loc (Client.t ClientId))).




End SetupSpec.

End SetupSpec.

(** ** A concrete federation: three clients, the third owned by an adversary *)
Module Scenario.

Definition benign_client (id : nat) : Client.t nat :=
  Client.mk id false true.

(** Before the algorithm starts, nobody is malicious yet. *)
Definition initial_heap : gmap loc (Client.t nat) :=
  {[ 1%positive := benign_client 0;
     2%positive := benign_client 1;
     3%positive := benign_client 2 ]}.

(** After [on_algorithm_start]: client 2 is malicious. *)
Definition heap : gmap loc (Client.t nat) :=
  {[ 1%positive := benign_client 0;
     2%positive := benign_client 1;
     3%positive := Client.mk 2%nat true false ]}.

Definition manager : gmap nat loc :=
  {[ 0%nat := 1%positive; 1%nat := 2%positive; 2%nat := 3%positive ]}.

Definition adversary : Adversary.t :=
  Adversary.__init__ [3%positive] None None.

Definition result (id : nat) (update : option (option (list Z)))
  : Algorithm.Result Z nat :=
  {| Algorithm.result_id := Some id; Algorithm.result_update := update |}.

(** Every client reports a pseudo-gradient. *)
Definition full_round : list (Algorithm.Result Z nat) :=
  [ result 0 (Some (Some [1; 2]));
    result 1 (Some (Some [3; 4]));
    result 2 (Some (Some [5; 6])) ].

(** The benign client 1 reports None. *)
Definition partial_round : list (Algorithm.Result Z nat) :=
  [ result 0 (Some (Some [1; 2]));
    result 1 (Some None);
    result 2 (Some (Some [5; 6])) ].

Definition config : AlgorithmConfig.t :=
  AlgorithmConfig.mk {[ "evaluation_interval" := PyNone ]} true.

Definition algorithm (results : list (Algorithm.Result Z nat)) : Algorithm.t Z nat :=
  Algorithm.mk config 0 None (Some manager) (Some results).

(** What a fresh AlgorithmConfig holds. *)
Definition default_attrs : gmap string PyVal :=
  {[ "algo_class" := PyNone;
     "dataset_config" := PyDict {[ "custom_dataset" := PyStr "simple" ]};
     "evaluation_interval" := PyNone;
     "num_cpus_for_driver" := PyInt 1;
     "num_gpus_for_driver" := PyInt 0;
     "_fake_gpus" := PyBool false;
     "num_cpus_per_worker" := PyInt 1;
     "num_gpus_per_worker" := PyInt 0;
     "custom_resources_per_worker" := PyDict ∅;
     "num_remote_workers" := PyInt 0 ]}.

Definition get_client_config (c : AlgorithmConfig.t) : option PyVal :=
  Some (PyDict ∅).

Definition get_dataset (dataset_config : PyVal) : option (Algorithm.Dataset nat) :=
  Some {| Algorithm.client_ids := [0; 1; 2]%nat |}.

(** A client manager that allocates one benign client per id. *)
Definition client_manager_cls (ids : list nat) (client_config : PyVal)
    (heap : gmap loc (Client.t nat))
  : option (gmap nat loc * gmap loc (Client.t nat)) :=
  Some (foldl (fun '(manager, heap) id =>
                 let l := fresh (dom heap) in
                 (<[id := l]> manager, <[l := benign_client id]> heap))
              (∅, heap) ids).

Definition can_open_wb (fs : gmap string Algorithm.File) (path : string) : bool :=
  true.

(** An algorithm about to run iteration [i] with evaluation interval [e]. *)
Definition stepping (e : PyVal) (i : Z) : Algorithm.t Z nat :=
  Algorithm.mk
    (AlgorithmConfig.mk (<["evaluation_interval" := e]> default_attrs) true)
    i None None None.

(** A subclass whose [evaluate] reports an accuracy. *)
Definition Evaluating_cls : Algorithm.Class Z nat := {|
  Algorithm.cls_name := "Evaluating";
  Algorithm.cls_training_step := fun self => Ok ({[ "loss" := PyInt 7 ]}, self);
  Algorithm.cls_evaluate := fun self => Ok (Some {[ "accuracy" := PyInt 1 ]}, self);
  Algorithm.cls_training_iteration_is_int := true;
|}.

(** Two remote workers, each with one accelerator. *)
Definition worker_config : gmap string PyVal :=
  {[ "num_remote_workers" := PyInt 2;
     "custom_resources_per_worker" := PyDict {[ "accelerator" := PyInt 1 ]} ]}.

(** A freshly constructed [AdversaryConfig()]. *)
Definition adversary_config : loc * gmap loc AdversaryConfig.Instance :=
  match AdversaryConfig.__init__ ∅ None None with
  | Ok created => created
  | Raise _ => (1%positive, ∅)
  end.

(** A [from_config] that knows the class Adversary only. *)
Definition from_config (cls : PyVal) (config_dict : gmap string PyVal)
    (clients : list loc) : Outcome Adversary.t :=
  match cls with
  | PyClass "Adversary" =>
      Ok (Adversary.__init__ clients (config_dict !! "global_config") None)
  | _ => Raise (ExternalError "from_config")
  end.


(** The second result lacks the key "id". *)
Definition anonymous_round : list (Algorithm.Result Z nat) :=
  [ result 0 (Some (Some [1; 2]));
    {| Algorithm.result_id := None; Algorithm.result_update := Some None |};
    result 2 (Some (Some [5; 6])) ].

(** As [full_round], but the malicious client 2 recorded something else. *)
Definition poisoned_round : list (Algorithm.Result Z nat) :=
  [ result 0 (Some (Some [1; 2]));
    result 1 (Some (Some [3; 4]));
    result 2 (Some (Some [100; -100; 7])) ].

(** An algorithm before [on_algorithm_start], with all results in. *)
Definition unfrozen_config : AlgorithmConfig.t :=
  AlgorithmConfig.mk default_attrs false.

(** A subclass whose training fails. *)
Definition Failing_cls : Algorithm.Class Z nat := {|
  Algorithm.cls_name := "Failing";
  Algorithm.cls_training_step := fun self => Raise (RuntimeError "worker died");
  Algorithm.cls_evaluate := fun self => Ok (Some {[ "accuracy" := PyInt 1 ]}, self);
  Algorithm.cls_training_iteration_is_int := true;
|}.

(** A subclass whose evaluation reports a loss of its own, and which defines
    a method named [training_iteration]. *)
Definition Shadowing_cls : Algorithm.Class Z nat := {|
  Algorithm.cls_name := "Shadowing";
  Algorithm.cls_training_step := fun self => Ok ({[ "loss" := PyInt 7 ]}, self);
  Algorithm.cls_evaluate := fun self => Ok (Some {[ "loss" := PyInt 9 ]}, self);
  Algorithm.cls_training_iteration_is_int := false;
|}.

(** Workers whose custom resources name the CPU. *)
Definition greedy_config : gmap string PyVal :=
  {[ "num_remote_workers" := PyInt 1;
     "custom_resources_per_worker" := PyDict {[ "CPU" := PyInt 8 ]} ]}.

(** An algorithm whose config binds [dataset_config] to None. *)
Definition undated : Algorithm.t Z nat :=
  Algorithm.mk (AlgorithmConfig.mk {[ "dataset_config" := PyNone ]} true)
    0 None None None.


(** Defaults that name a placement strategy of their own. *)
Definition spreading_attrs : gmap string PyVal :=
  <["placement_strategy" := PyStr "SPREAD"]> default_attrs.

End Scenario.

(** * Properties of the adversary *)
Section AdversaryProperties.
Context {Scalar : Type} {ClientId : Type} `{Countable ClientId}.

Implicit Types (manager : gmap ClientId loc) (heap : gmap loc (Client.t ClientId)).
Implicit Types (results : list (Algorithm.Result Scalar ClientId)).
Implicit Types (algorithm : Algorithm.t Scalar ClientId).

Lemma contributed_cons manager heap (r : Algorithm.Result Scalar ClientId) results :
  Round.contributed manager heap (r :: results)
  = (if Round.benign manager heap r
     then match Adversary.get_update r with Some t => [t] | None => [] end
     else [])
    ++ Round.contributed manager heap results.
Proof.
  unfold Round.contributed. simpl.
  destruct (Round.benign manager heap r); [|done].
  by destruct (Adversary.get_update r).
Qed.

Lemma benign_results_cons manager heap (r : Algorithm.Result Scalar ClientId) results :
  Round.benign_results manager heap (r :: results)
  = (if Round.benign manager heap r then [r] else [])
    ++ Round.benign_results manager heap results.
Proof.
  unfold Round.benign_results. simpl.
  by destruct (Round.benign manager heap r).
Qed.

(** When every result names a client the manager knows, the loop appends
    exactly the contributed pseudo-gradients. *)
Lemma collect_updates_contributed algorithm manager heap results updates :
  Algorithm.client_manager algorithm = Some manager ->
  Forall (fun r => is_Some (Round.owner manager heap r)) results ->
  Adversary.collect_updates algorithm heap results updates
  = Ok (updates ++ Round.contributed manager heap results).
Proof.
  intros Hm Hwf. revert updates.
  induction Hwf as [|r rs [c Hc] _ IH]; intros updates.
  - simpl. by rewrite app_nil_r.
  - rewrite contributed_cons. simpl. rewrite Hm. simpl.
    unfold Round.benign. rewrite Hc.
    unfold Round.owner in Hc.
    unfold Adversary.get_id, ClientManager.get_client_by_id.
    destruct (Algorithm.result_id r) as [id|]; simpl in *; [|done].
    destruct (manager !! id) as [l|]; simpl in *; [|done].
    rewrite Hc. simpl.
    destruct (Adversary.get_update r) as [grad|] eqn:Hg.
    + destruct (Client.is_malicious c); simpl.
      * apply IH.
      * rewrite IH. by rewrite <- app_assoc.
    + rewrite IH. by destruct (negb (Client.is_malicious c)).
Qed.

Lemma benign_not_malicious manager heap (r : Algorithm.Result Scalar ClientId) :
  is_Some (Round.owner manager heap r) ->
  Round.benign manager heap r = negb (Round.malicious manager heap r).
Proof. intros [c Hc]. unfold Round.benign, Round.malicious. by rewrite Hc. Qed.

(** N - M is the number of benign results. *)
Lemma benign_results_length manager heap results :
  Forall (fun r => is_Some (Round.owner manager heap r)) results ->
  length (Round.benign_results manager heap results)
  = (length results - Round.num_malicious manager heap results)%nat.
Proof.
  unfold Round.benign_results, Round.num_malicious.
  induction 1 as [|r rs Hr _ IH]; simpl; [done|].
  rewrite (benign_not_malicious _ _ _ Hr).
  assert (length (List.filter (Round.malicious manager heap) rs) <= length rs)%nat
    as Hle by apply List.filter_length_le.
  destruct (Round.malicious manager heap r); simpl; rewrite IH.
  - reflexivity.
  - symmetry. apply Nat.sub_succ_l. exact Hle.
Qed.



Lemma contributed_all_recorded manager heap results :
  Forall (fun r => Round.benign manager heap r = true ->
                   is_Some (Adversary.get_update r)) results ->
  Some <$> Round.contributed manager heap results
  = Adversary.get_update <$> Round.benign_results manager heap results.
Proof.
  induction 1 as [|r rs Hr _ IH]; [done|].
  rewrite contributed_cons, benign_results_cons, !fmap_app, IH.
  destruct (Round.benign manager heap r); [|done].
  destruct Hr as [t Ht]; [done|]. rewrite Ht. simpl. by rewrite Ht.
Qed.

Lemma contributed_widths manager heap results (width : nat) :
  Forall (fun r => Round.benign manager heap r = true ->
                   forall t, Adversary.get_update r = Some t -> length t = width)
         results ->
  Forall (fun t => length t = width) (Round.contributed manager heap results).
Proof.
  induction 1 as [|r rs Hr _ IH]; [constructor|].
  rewrite contributed_cons. apply Forall_app. split; [|done].
  destruct (Round.benign manager heap r); [|constructor].
  destruct (Adversary.get_update r) as [t|]; [|constructor].
  constructor; [by apply Hr | constructor].
Qed.

(** Rows of one width stack. *)
Lemma vstack_uniform (rows : list (Tensor Scalar)) (width : nat) :
  rows <> [] ->
  Forall (fun t => length t = width) rows ->
  vstack rows = Ok rows.
Proof.
  destruct rows as [|t rest]; [done|]. intros _ Hall.
  apply Forall_cons in Hall as [Ht Hrest]. unfold vstack.
  replace (forallb (same_width t) rest) with true; [done|].
  symmetry. apply forallb_forall. intros u Hu.
  unfold same_width. apply bool_decide_eq_true.
  rewrite Forall_forall in Hrest. rewrite Ht. apply Hrest.
  by apply list_elem_of_In.
Qed.

End AdversaryProperties.

Section AdversaryClaims.
Context {Scalar : Type} {ClientId : Type} `{Countable ClientId}.

Implicit Types (manager : gmap ClientId loc) (heap : gmap loc (Client.t ClientId)).
Implicit Types (results : list (Algorithm.Result Scalar ClientId)).
Implicit Types (algorithm : Algorithm.t Scalar ClientId).

Lemma get_benign_updates_unfold self algorithm heap manager results :
  Algorithm.local_results algorithm = Some results ->
  Algorithm.client_manager algorithm = Some manager ->
  Forall (fun r => is_Some (Round.owner manager heap r)) results ->
  Adversary.get_benign_updates self algorithm heap
  = match Round.contributed manager heap results with
    | [] => Raise Adversary.no_benign_updates
    | rows => vstack rows
    end.
Proof.
  intros Hres Hm Hwf. unfold Adversary.get_benign_updates.
  rewrite Hres. simpl.
  rewrite (collect_updates_contributed _ _ _ _ _ Hm Hwf). simpl.
  by destruct (Round.contributed manager heap results).
Qed.

(** C1 (as amended): in a round of N results, M of them of malicious
    clients, where every result names a client the manager knows and every
    benign client's result carries a pseudo-gradient (not None) of one common
    length, [get_benign_updates] returns a stack of exactly N - M rows, each
    the recorded pseudo-gradient of the corresponding benign client, in the
    iteration order of [local_results]; when N - M = 0 it raises the
    ValueError. *)
Theorem get_benign_updates_all_recorded self algorithm heap manager results width :
  Algorithm.local_results algorithm = Some results ->
  Algorithm.client_manager algorithm = Some manager ->
  Forall (fun r => is_Some (Round.owner manager heap r)) results ->
  Forall (fun r => Round.benign manager heap r = true ->
                   is_Some (Adversary.get_update r)) results ->
  Forall (fun r => Round.benign manager heap r = true ->
                   forall t, Adversary.get_update r = Some t -> length t = width)
         results ->
  Round.stacks_every_benign_result self algorithm heap manager results.
Proof.
  intros Hres Hm Hwf Hrec Hwidth.
  pose proof (contributed_all_recorded _ _ _ Hrec) as Hrows.
  pose proof (benign_results_length _ _ _ Hwf) as Hlen.
  pose proof (contributed_widths _ _ _ _ Hwidth) as Hw.
  assert (length (Round.contributed manager heap results)
          = length (Round.benign_results manager heap results)) as Hsame.
  { by rewrite <- (length_fmap Some), Hrows, length_fmap. }
  unfold Round.stacks_every_benign_result.
  rewrite (get_benign_updates_unfold self _ _ _ _ Hres Hm Hwf).
  rewrite <- Hlen, <- Hsame.
  split.
  - intros Hne. exists (Round.contributed manager heap results).
    split; [|done].
    destruct (Round.contributed manager heap results) as [|t rows] eqn:Hc; [done|].
    by apply (vstack_uniform _ width).
  - intros Hz. by apply nil_length_inv in Hz as ->.
Qed.


Lemma on_algorithm_start_lookup (self : Adversary.t) algorithm heap (l : loc) :
  Adversary.on_algorithm_start self algorithm heap !! l
  = if bool_decide (l ∈ Adversary.clients self)
    then (fun c => Client.to_malicious c false) <$> heap !! l
    else heap !! l.
Proof.
  unfold Adversary.on_algorithm_start.
  generalize (Adversary.clients self) as owned. intros owned. revert heap.
  induction owned as [|o owned IH]; intros heap; simpl.
  - done.
  - rewrite IH. rewrite lookup_alter.
    destruct (decide (o = l)) as [->|Hne].
    + rewrite (bool_decide_eq_true_2 (l ∈ l :: owned)) by (apply elem_of_cons; by left).
      destruct (bool_decide (l ∈ owned)); [|done].
      by destruct (heap !! l) as [[]|].
    + destruct (decide (l ∈ owned)) as [Hin|Hnin].
      * rewrite !bool_decide_eq_true_2; [done|by apply elem_of_cons; right|done].
      * rewrite !bool_decide_eq_false_2; [done| |done].
        intros [->|?]%elem_of_cons; done.
Qed.

(** C4: [on_algorithm_start] turns every client of the adversary's own list
    malicious (is_malicious becomes True, local training is switched off, the
    client keeps its id) and leaves every client outside that list as it
    was. *)
Theorem on_algorithm_start_marks_owned (self : Adversary.t) algorithm heap :
  (forall l client,
     l ∈ Adversary.clients self -> heap !! l = Some client ->
     exists client',
       Adversary.on_algorithm_start self algorithm heap !! l = Some client' /\
       Client.is_malicious client' = true /\
       Client.local_training client' = false /\
       Client.client_id client' = Client.client_id client) /\
  (forall l,
     l ∉ Adversary.clients self ->
     Adversary.on_algorithm_start self algorithm heap !! l = heap !! l).
Proof.
  split.
  - intros l client Hin Hl. rewrite on_algorithm_start_lookup.
    rewrite bool_decide_eq_true_2 by done. rewrite Hl. simpl. eauto.
  - intros l Hnin. rewrite on_algorithm_start_lookup.
    by rewrite bool_decide_eq_false_2.
Qed.

End AdversaryClaims.

(** ** The adversary claims on the concrete federation *)

Lemma get_benign_updates_all_recorded_witness :
  Round.stacks_every_benign_result Scenario.adversary
    (Scenario.algorithm Scenario.full_round) Scenario.heap Scenario.manager
    Scenario.full_round.
Proof.
  apply (get_benign_updates_all_recorded Scenario.adversary
           (Scenario.algorithm Scenario.full_round) Scenario.heap Scenario.manager
           Scenario.full_round 2%nat).
  - reflexivity.
  - reflexivity.
  - repeat constructor; vm_compute; eexists; reflexivity.
  - repeat constructor; intros _; vm_compute; eexists; reflexivity.
  - repeat constructor; intros Hb t Ht; vm_compute in Hb, Ht;
      first [discriminate Hb | injection Ht as <-; reflexivity].
Defined.

(** C1 (as stated) fails: with three results, one of a malicious client, and
    the benign client 1 reporting None, N - M = 2 but the stack has one row. *)
Lemma get_benign_updates_not_every_benign_result :
  Adversary.get_benign_updates Scenario.adversary
    (Scenario.algorithm Scenario.partial_round) Scenario.heap = Ok [[1; 2]] /\
  (length Scenario.partial_round
   - Round.num_malicious Scenario.manager Scenario.heap Scenario.partial_round)%nat
  = 2%nat /\
  ~ Round.stacks_every_benign_result Scenario.adversary
      (Scenario.algorithm Scenario.partial_round) Scenario.heap Scenario.manager
      Scenario.partial_round.
Proof.
  split; [vm_compute; reflexivity|].
  split; [vm_compute; reflexivity|].
  intros [Hrows _].
  destruct Hrows as (rows & Hget & Hlen & _); [vm_compute; discriminate|].
  vm_compute in Hget. injection Hget as <-.
  vm_compute in Hlen. discriminate Hlen.
Qed.


Lemma on_algorithm_start_marks_owned_witness :
  exists client',
    Adversary.on_algorithm_start Scenario.adversary
      (Scenario.algorithm Scenario.full_round) Scenario.initial_heap !! 3%positive
    = Some client' /\
    Client.is_malicious client' = true /\
    Client.local_training client' = false /\
    Client.client_id client' = 2%nat.
Proof.
  apply (proj1 (on_algorithm_start_marks_owned Scenario.adversary
                  (Scenario.algorithm Scenario.full_round) Scenario.initial_heap)
           3%positive (Scenario.benign_client 2)).
  - apply list_elem_of_singleton. reflexivity.
  - reflexivity.
Defined.

(** * Properties of AdversaryConfig *)
Section AdversaryConfigProperties.

Implicit Types (store : gmap loc AdversaryConfig.Instance) (c : loc).
Implicit Types (inst : AdversaryConfig.Instance).

Lemma not_guarded (k : string) :
  k ∉ AdversaryConfig.guarded ->
  String.eqb k "__class__" = false /\
  String.eqb k "__dict__" = false /\
  String.eqb k "__weakref__" = false.
Proof.
  intros Hk. repeat split; apply String.eqb_neq; intros ->; apply Hk;
    unfold AdversaryConfig.guarded; set_solver.
Qed.

(** A name that is not guarded is written into the instance dictionary. *)
Lemma setattr_plain store c inst body (k : string) (v : PyVal) :
  store !! c = Some inst ->
  AdversaryConfig.class_body (AdversaryConfig.inst_class inst) = Some body ->
  k ∉ AdversaryConfig.guarded ->
  AdversaryConfig.setattr store c k v
  = Ok (<[c := {| AdversaryConfig.inst_class := AdversaryConfig.inst_class inst;
                  AdversaryConfig.inst_dict := <[k := v]> (AdversaryConfig.inst_dict inst) |}]>
          store).
Proof.
  intros Hc Hbody Hk. destruct (not_guarded k Hk) as (H1 & H2 & H3).
  unfold AdversaryConfig.setattr. by rewrite Hc, Hbody, H1, H2, H3.
Qed.

(** A name that is not guarded is read from the instance dictionary, when it
    is there. *)
Lemma getattr_plain store c inst body (k : string) (v : PyVal) :
  store !! c = Some inst ->
  AdversaryConfig.class_body (AdversaryConfig.inst_class inst) = Some body ->
  k ∉ AdversaryConfig.guarded ->
  AdversaryConfig.inst_dict inst !! k = Some v ->
  AdversaryConfig.getattr store c k = Ok v.
Proof.
  intros Hc Hbody Hk Hv. destruct (not_guarded k Hk) as (H1 & H2 & H3).
  unfold AdversaryConfig.getattr. by rewrite Hc, Hbody, H1, H2, H3, Hv.
Qed.

(** C3 (as amended): on an AdversaryConfig [c], for every key [k] other than
    the guarded names [__class__], [__dict__] and [__weakref__] and every
    value [v], [c.update_from_dict({k: v})] sets the attribute [k] of [c] to
    [v], whether or not [c] had an attribute [k] before, and returns the very
    object [c]. *)
Theorem update_from_dict_sets_attribute store c inst (k : string) (v : PyVal) :
  store !! c = Some inst ->
  AdversaryConfig.inst_class inst = "AdversaryConfig" ->
  k ∉ AdversaryConfig.guarded ->
  ConfigSpec.update_sets store c k v.
Proof.
  intros Hc Hcls Hk.
  assert (AdversaryConfig.class_body (AdversaryConfig.inst_class inst)
          = Some AdversaryConfig.methods) as Hbody by (by rewrite Hcls).
  unfold ConfigSpec.update_sets, AdversaryConfig.update_from_dict. simpl.
  rewrite (setattr_plain store c inst _ k v Hc Hbody Hk). simpl.
  eexists. split; [done|].
  eapply getattr_plain.
  - apply lookup_insert_eq.
  - exact Hbody.
  - done.
  - apply lookup_insert_eq.
Qed.

(** The class body defines neither [validate] nor [freeze], and [object]
    provides neither. *)
Lemma getattr_undefined store c inst (name : string) :
  store !! c = Some inst ->
  AdversaryConfig.inst_class inst = "AdversaryConfig" ->
  name = "validate" \/ name = "freeze" ->
  AdversaryConfig.inst_dict inst !! name = None ->
  AdversaryConfig.getattr store c name = Raise (AttributeError name).
Proof.
  intros Hc Hcls Hname Hnone. unfold AdversaryConfig.getattr.
  rewrite Hc, Hcls. destruct Hname as [-> | ->]; simpl; by rewrite Hnone.
Qed.

End AdversaryConfigProperties.

Lemma update_from_dict_sets_attribute_witness :
  ConfigSpec.update_sets Scenario.adversary_config.2 Scenario.adversary_config.1
    "scale" (PyInt 3).
Proof.
  eapply (update_from_dict_sets_attribute Scenario.adversary_config.2
            Scenario.adversary_config.1 _ "scale" (PyInt 3)).
  - vm_compute. reflexivity.
  - reflexivity.
  - vm_compute. intros Hin.
    repeat (apply elem_of_cons in Hin as [Hin|Hin]; [discriminate Hin|]).
    by apply elem_of_nil in Hin.
Defined.

(** C3 (as stated) fails at the guarded names: on a fresh [AdversaryConfig()]
    the update [{"__class__": 5}] raises TypeError, as does
    [{"__dict__": 5}], and [{"__weakref__": 5}] raises AttributeError; in
    none of the three cases is the attribute set. *)
Lemma update_from_dict_guarded_names :
  AdversaryConfig.update_from_dict Scenario.adversary_config.2
    Scenario.adversary_config.1 [("__class__", PyInt 5)]
  = Raise (TypeError "__class__ must be set to a class") /\
  ~ ConfigSpec.update_sets Scenario.adversary_config.2 Scenario.adversary_config.1
      "__class__" (PyInt 5) /\
  ~ ConfigSpec.update_sets Scenario.adversary_config.2 Scenario.adversary_config.1
      "__dict__" (PyInt 5) /\
  ~ ConfigSpec.update_sets Scenario.adversary_config.2 Scenario.adversary_config.1
      "__weakref__" (PyInt 5).
Proof.
  split; [vm_compute; reflexivity|].
  repeat split; intros (store' & Hupdate & _);
    vm_compute in Hupdate; discriminate Hupdate.
Qed.

(** C2 (as stated) fails for AdversaryConfig: on a fresh [AdversaryConfig()]
    neither [validate] nor [freeze] resolves (AttributeError), and a write
    goes through. *)
Lemma adversary_config_never_frozen :
  AdversaryConfig.getattr Scenario.adversary_config.2 Scenario.adversary_config.1
    "freeze" = Raise (AttributeError "freeze") /\
  (exists store',
     AdversaryConfig.setattr Scenario.adversary_config.2 Scenario.adversary_config.1
       "global_config" (PyInt 1) = Ok store' /\
     AdversaryConfig.getattr store' Scenario.adversary_config.1 "global_config"
     = Ok (PyInt 1)) /\
  ~ ConfigSpec.adversary_config_freezes Scenario.adversary_config.2
      Scenario.adversary_config.1.
Proof.
  split; [vm_compute; reflexivity|].
  split; [eexists; split; vm_compute; reflexivity|].
  intros (_ & Hfreeze & _). vm_compute in Hfreeze. discriminate Hfreeze.
Qed.

(** * Properties of Algorithm.step *)
Section StepProperties.
Context {Scalar : Type} {ClientId : Type} `{Countable ClientId}.

Implicit Types (cls : Algorithm.Class Scalar ClientId).
Implicit Types (self : Algorithm.t Scalar ClientId).

(** What [step] does once the interval has been read: the modulo decides. *)
Lemma step_unfold cls self (e : option Z) :
  AlgorithmConfig.getattr (Algorithm.config self) "evaluation_interval"
  = Ok (StepSpec.interval_value e) ->
  e <> Some 0 ->
  (StepSpec.evaluation_due (Algorithm.iteration self) e ->
   Algorithm.step cls self = StepSpec.train_and_evaluate cls self) /\
  (~ StepSpec.evaluation_due (Algorithm.iteration self) e ->
   Algorithm.step cls self = Algorithm.cls_training_step cls self).
Proof.
  intros He Hz. unfold Algorithm.step. rewrite He. simpl.
  destruct e as [e|]; simpl.
  - unfold py_mod. destruct (Z.eqb_spec e 0) as [->|Hne]; [done|]. simpl.
    destruct (Z.eqb_spec ((Algorithm.iteration self + 1) `mod` e) 0) as [Hdue|Hnot].
    + split; [done|]. intros Hnot. by destruct Hnot.
    + split; [intros Hdue; by destruct Hnot|]. intros _.
      by destruct (Algorithm.cls_training_step cls self) as [[??]|].
  - split; [intros []|]. intros _.
    by destruct (Algorithm.cls_training_step cls self) as [[??]|].
Qed.

(** C5 (as amended): for an evaluation interval [e] that is None or a
    non-zero integer, [step] runs the evaluation exactly when [e] is not None
    and (i+1) mod e == 0, and then returns the training results updated with
    the metrics that [evaluate] returned as a mapping; in all other cases it
    returns the result of [training_step()] unchanged. *)
Theorem step_evaluates_when_due cls self (e : option Z) :
  AlgorithmConfig.getattr (Algorithm.config self) "evaluation_interval"
  = Ok (StepSpec.interval_value e) ->
  e <> Some 0 ->
  (StepSpec.evaluation_due (Algorithm.iteration self) e ->
   Algorithm.step cls self = StepSpec.train_and_evaluate cls self /\
   forall results self1 metrics self2,
     Algorithm.cls_training_step cls self = Ok (results, self1) ->
     Algorithm.cls_evaluate cls self1 = Ok (Some metrics, self2) ->
     Algorithm.step cls self = Ok (metrics ∪ results, self2)) /\
  (~ StepSpec.evaluation_due (Algorithm.iteration self) e ->
   Algorithm.step cls self = Algorithm.cls_training_step cls self).
Proof.
  intros He Hz. destruct (step_unfold cls self e He Hz) as [Hyes Hno]. split.
  - intros Hdue. rewrite (Hyes Hdue). split; [done|].
    intros results self1 metrics self2 Htrain Heval.
    unfold StepSpec.train_and_evaluate. rewrite Htrain. simpl.
    rewrite Heval. done.
  - done.
Qed.

(** C10: on an iteration where the evaluation is due, [step] of a class that
    keeps the base [evaluate] raises TypeError as soon as [training_step]
    has returned, because the base [evaluate] returns None; whenever [step]
    completes on such an iteration, [evaluate] has returned a mapping, whose
    metrics are merged into the result. *)
Theorem step_base_evaluate_raises self (e : Z) :
  AlgorithmConfig.getattr (Algorithm.config self) "evaluation_interval"
  = Ok (PyInt e) ->
  e <> 0 ->
  (Algorithm.iteration self + 1) `mod` e = 0 ->
  Algorithm.step Algorithm.Algorithm_cls self
  = Raise (TypeError "'NoneType' object is not iterable") /\
  (forall cls results self1,
     (forall s, Algorithm.cls_evaluate cls s = Algorithm.evaluate s) ->
     Algorithm.cls_training_step cls self = Ok (results, self1) ->
     Algorithm.step cls self = Raise (TypeError "'NoneType' object is not iterable")) /\
  (forall cls merged self',
     Algorithm.step cls self = Ok (merged, self') ->
     exists results self1 metrics,
       Algorithm.cls_training_step cls self = Ok (results, self1) /\
       Algorithm.cls_evaluate cls self1 = Ok (Some metrics, self') /\
       merged = metrics ∪ results).
Proof.
  intros He Hz Hdue.
  assert (forall cls, Algorithm.step cls self = StepSpec.train_and_evaluate cls self)
    as Hstep.
  { intros cls. apply (step_unfold cls self (Some e)); [done|congruence|done]. }
  split; [|split].
  - rewrite Hstep. reflexivity.
  - intros cls results self1 Hbase Htrain. rewrite Hstep.
    unfold StepSpec.train_and_evaluate. rewrite Htrain. simpl.
    rewrite Hbase. reflexivity.
  - intros cls merged self'. rewrite Hstep. unfold StepSpec.train_and_evaluate.
    destruct (Algorithm.cls_training_step cls self) as [[results self1]|]; [|done].
    simpl.
    destruct (Algorithm.cls_evaluate cls self1) as [[[metrics|] self2]|] eqn:Heval;
      [|done|done].
    simpl. intros [= <- <-]. by exists results, self1, metrics.
Qed.

End StepProperties.

Lemma step_evaluates_when_due_witness :
  Algorithm.step Scenario.Evaluating_cls (Scenario.stepping (PyInt 2) 3)
  = Ok ({[ "accuracy" := PyInt 1 ]} ∪ {[ "loss" := PyInt 7 ]},
        Scenario.stepping (PyInt 2) 3).
Proof.
  apply (proj1 (step_evaluates_when_due Scenario.Evaluating_cls
                  (Scenario.stepping (PyInt 2) 3) (Some 2)
                  eq_refl ltac:(discriminate)));
    reflexivity.
Defined.

(** C5 (as stated) fails twice: with the interval 0 no evaluation is due,
    yet [step] raises ZeroDivisionError instead of returning what
    [training_step()] returns; and with the base [evaluate], a due
    evaluation makes [step] raise instead of returning a merged mapping. *)
Lemma step_not_exactly_when_due :
  Algorithm.step Algorithm.Algorithm_cls (Scenario.stepping (PyInt 0) 0)
  = Raise ZeroDivisionError /\
  ~ StepSpec.evaluates_exactly_when_due Algorithm.Algorithm_cls
      (Scenario.stepping (PyInt 0) 0) (Some 0) /\
  ~ StepSpec.evaluates_exactly_when_due Algorithm.Algorithm_cls
      (Scenario.stepping (PyInt 1) 0) (Some 1).
Proof.
  split; [reflexivity|]. split.
  - intros [_ Hnot].
    assert (~ StepSpec.evaluation_due
                (Algorithm.iteration (Scenario.stepping (PyInt 0) 0)) (Some 0)) as Hd.
    { vm_compute. discriminate. }
    specialize (Hnot Hd). vm_compute in Hnot. discriminate Hnot.
  - intros [Hdue _].
    destruct (Hdue eq_refl ∅ (Scenario.stepping (PyInt 1) 0) None
                (Scenario.stepping (PyInt 1) 0) eq_refl eq_refl)
      as (merged & Hstep & _).
    vm_compute in Hstep. discriminate Hstep.
Qed.

Lemma step_base_evaluate_raises_witness :
  Algorithm.step Algorithm.Algorithm_cls (Scenario.stepping (PyInt 2) 3)
  = Raise (TypeError "'NoneType' object is not iterable").
Proof.
  apply (step_base_evaluate_raises (Scenario.stepping (PyInt 2) 3) 2
           eq_refl ltac:(discriminate) eq_refl).
Defined.

(** * Properties of AlgorithmConfig *)
Section AlgorithmConfigProperties.

Implicit Types (c : AlgorithmConfig.t).

Lemma setattr_frozen c (k : string) (v : PyVal) :
  AlgorithmConfig.is_frozen c = true ->
  AlgorithmConfig.setattr c k v = Raise (AttributeError k).
Proof. intros Hfrozen. unfold AlgorithmConfig.setattr. by rewrite Hfrozen. Qed.

(** A frozen config refuses every dictionary that has a key. *)
Lemma update_from_dict_frozen c (d : gmap string PyVal) :
  AlgorithmConfig.is_frozen c = true ->
  d <> ∅ ->
  exists e, AlgorithmConfig.update_from_dict c d = Raise e.
Proof.
  intros Hfrozen. unfold AlgorithmConfig.update_from_dict.
  cut ((d = ∅ ->
        map_fold (fun key value (acc : Outcome AlgorithmConfig.t) =>
                    acc ≫= fun c' => AlgorithmConfig.setattr c' key value)
                 (Ok c) d = Ok c) /\
       (d <> ∅ ->
        exists e,
          map_fold (fun key value (acc : Outcome AlgorithmConfig.t) =>
                      acc ≫= fun c' => AlgorithmConfig.setattr c' key value)
                   (Ok c) d = Raise e)).
  { intros [_ Hne]. exact Hne. }
  apply (map_fold_weak_ind
    (fun (r : Outcome AlgorithmConfig.t) (m : gmap string PyVal) =>
       (m = ∅ -> r = Ok c) /\ (m <> ∅ -> exists e, r = Raise e))).
  - split; done.
  - intros k v m r _ [IHe IHne]. split.
    + intros Hempty. by apply insert_non_empty in Hempty.
    + intros _. destruct (decide (m = ∅)) as [Hm|Hm].
      * rewrite (IHe Hm). simpl. rewrite setattr_frozen by done. by eexists.
      * destruct (IHne Hm) as [e ->]. by eexists.
Qed.

End AlgorithmConfigProperties.

(** * Properties of Algorithm.setup, the constructor and the checkpoint *)
Section LifecycleProperties.
Context {Scalar : Type} {ClientId : Type} `{Countable ClientId}.
Context (default_attrs : gmap string PyVal).
Context (get_client_config : AlgorithmConfig.t -> option PyVal).
Context (get_dataset : PyVal -> option (Algorithm.Dataset ClientId)).
Context (client_manager_cls :
  list ClientId -> PyVal -> gmap loc (Client.t ClientId) ->
  option (gmap ClientId loc * gmap loc (Client.t ClientId))).

Implicit Types (self : Algorithm.t Scalar ClientId).
Implicit Types (heap : gmap loc (Client.t ClientId)).

Local Abbreviation setup :=
  (Algorithm.setup default_attrs get_client_config get_dataset client_manager_cls).
Local Abbreviation init :=
  (Algorithm.__init__ default_attrs get_client_config get_dataset client_manager_cls).

(** The part of [setup] after the config has been settled: catalog lookup
    and construction of the client manager. *)
Lemma setup_config_object self (c : AlgorithmConfig.t) heap (d : gmap string PyVal) :
  AlgorithmConfig.getattr (Algorithm.config self) "dataset_config" = Ok (PyDict d) ->
  setup self (Algorithm.ConfigObject c) heap
  = if bool_decide (d = ∅) then Raise (ValueError "Dataset config must be provided")
    else
      dataset ← external "DatasetCatalog.get_dataset" (get_dataset (PyDict d));
      client_config ← external "get_client_config"
                        (get_client_config (Algorithm.config self));
      '(manager, heap') ← external "client_manager_cls"
                            (client_manager_cls (Algorithm.client_ids dataset)
                               client_config heap);
      Ok (Algorithm.mk (Algorithm.config self) (Algorithm.iteration self)
            (Some dataset) (Some manager) (Algorithm.local_results self), heap').
Proof.
  intros Hd. unfold Algorithm.setup. simpl. rewrite Hd. simpl.
  destruct (decide (d = ∅)) as [->|Hne].
  - by rewrite bool_decide_eq_true_2.
  - rewrite bool_decide_eq_false_2 by done.
    assert ((0 <? Z.of_nat (size d)) = true) as ->.
    { apply Z.ltb_lt. pose proof (map_size_empty_inv d) as Hsize.
      destruct (size d) as [|n]; [|lia]. destruct Hne. by apply Hsize. }
    done.
Qed.


(** [setup] called with a config object leaves [self.config] alone. *)
Lemma setup_keeps_config self (c : AlgorithmConfig.t) heap self' heap' :
  setup self (Algorithm.ConfigObject c) heap = Ok (self', heap') ->
  Algorithm.config self' = Algorithm.config self.
Proof.
  unfold Algorithm.setup. simpl.
  destruct (AlgorithmConfig.getattr _ _) as [dc|]; simpl; [|done].
  destruct (len dc) as [n|]; simpl; [|done].
  destruct (0 <? n); simpl; [|done].
  destruct (get_dataset dc) as [dataset|]; simpl; [|done].
  destruct (get_client_config _) as [cc|]; simpl; [|done].
  destruct (client_manager_cls _ _ _) as [[??]|]; simpl; [|done].
  by intros [= <- <-].
Qed.

(** Every algorithm that the constructor returns holds a frozen config. *)
Lemma init_freezes cls (config_arg : Algorithm.ConfigArg) heap self heap' :
  init cls config_arg heap = Ok (self, heap') ->
  AlgorithmConfig.is_frozen (Algorithm.config self) = true.
Proof.
  unfold Algorithm.__init__.
  match goal with
  | |- context [mbind _ ?m] => destruct m as [config|]; simpl; [|done]
  end.
  destruct (AlgorithmConfig.getattr config "algo_class") as [ac|]; simpl; [|done].
  match goal with
  | |- context [mbind _ ?m] => destruct m as [config'|]; simpl; [|done]
  end.
  unfold Algorithm.Trainable_init.
  destruct (Algorithm.setup _ _ _ _ _ _ _) as [[self0 heap0]|] eqn:Hsetup; simpl; [|done].
  destruct (Algorithm.cls_training_iteration_is_int cls); [|done].
  intros [= <- <-].
  by rewrite (setup_keeps_config _ _ _ _ _ Hsetup).
Qed.

(** Called with a plain dictionary, [setup] first lays it over the default
    config and then proceeds as with that config object. *)
Lemma setup_config_dict self (d : gmap string PyVal) heap :
  setup self (Algorithm.ConfigDict d) heap
  = AlgorithmConfig.update_from_dict (Algorithm.get_default_config default_attrs) d
    ≫= fun config_obj =>
    setup (Algorithm.mk config_obj (Algorithm.iteration self) (Algorithm.dataset self)
             (Algorithm.client_manager self) (Algorithm.local_results self))
          (Algorithm.ConfigObject config_obj) heap.
Proof.
  unfold Algorithm.setup.
  by destruct (AlgorithmConfig.update_from_dict _ d).
Qed.

(** C2 (as amended): once [validate()] and [freeze()] have been called on
    an AlgorithmConfig, as [Algorithm.__init__] does before any training,
    every later attribute write on it raises; AdversaryConfig supports no
    [freeze()]: the class defines neither [validate] nor [freeze], so on an
    AdversaryConfig object that was not given an attribute of that name,
    looking either up raises AttributeError. *)
Theorem only_algorithm_config_freezes cls (config_arg : Algorithm.ConfigArg)
    heap self heap' :
  init cls config_arg heap = Ok (self, heap') ->
  (forall c k v,
     AlgorithmConfig.validate c = Ok tt /\
     AlgorithmConfig.setattr (AlgorithmConfig.freeze c) k v = Raise (AttributeError k)) /\
  (forall k v,
     AlgorithmConfig.setattr (Algorithm.config self) k v = Raise (AttributeError k)) /\
  (forall d, d <> ∅ ->
     exists e, AlgorithmConfig.update_from_dict (Algorithm.config self) d = Raise e) /\
  (forall (store : gmap loc AdversaryConfig.Instance) (c : loc) inst name,
     name = "validate" \/ name = "freeze" ->
     store !! c = Some inst ->
     AdversaryConfig.inst_class inst = "AdversaryConfig" ->
     AdversaryConfig.inst_dict inst !! name = None ->
     AdversaryConfig.getattr store c name = Raise (AttributeError name)).
Proof.
  intros Hinit. pose proof (init_freezes _ _ _ _ _ Hinit) as Hfrozen.
  split; [|split; [|split]].
  - intros c k v. split; [done|]. by apply setattr_frozen.
  - intros k v. by apply setattr_frozen.
  - intros d. by apply update_from_dict_frozen.
  - intros store c inst name Hname Hc Hcls Hnone. by eapply getattr_undefined.
Qed.

End LifecycleProperties.

Lemma only_algorithm_config_freezes_witness :
  AlgorithmConfig.setattr
    (AlgorithmConfig.freeze
       (AlgorithmConfig.mk
          (<["algo_class" := PyClass "Algorithm"]> Scenario.default_attrs) false))
    "evaluation_interval" (PyInt 5)
  = Raise (AttributeError "evaluation_interval").
Proof.
  apply (proj1 (proj2 (only_algorithm_config_freezes (Scalar := Z)
           Scenario.default_attrs Scenario.get_client_config Scenario.get_dataset
           Scenario.client_manager_cls Algorithm.Algorithm_cls Algorithm.NoConfig ∅
           _ _ eq_refl))).
Defined.



(** * Properties of the checkpoint and of the resource request *)
Section CheckpointProperties.
Context {Scalar : Type} {ClientId : Type} `{Countable ClientId}.
Context (can_open_wb : gmap string Algorithm.File -> string -> bool).

Implicit Types (self : Algorithm.t Scalar ClientId) (fs : gmap string Algorithm.File).

(** The state file sits directly inside the directory. *)
Lemma path_join_state_file (checkpoint_dir : string) :
  Os.path_join checkpoint_dir "algorithm_state.pkl"
  = if bool_decide (checkpoint_dir = "") || Os.ends_with_sep checkpoint_dir
    then checkpoint_dir +:+ "algorithm_state.pkl"
    else checkpoint_dir +:+ "/" +:+ "algorithm_state.pkl".
Proof. reflexivity. Qed.

(** C7: for a directory in which the state file can be opened for writing,
    [save_checkpoint] writes exactly one file, "algorithm_state.pkl" directly
    inside the directory; the file holds the pickled mapping that binds
    "config" to the algorithm's config; the call returns the directory
    path. *)
Theorem save_checkpoint_writes_state self (checkpoint_dir : string) fs :
  let state_file := Os.path_join checkpoint_dir "algorithm_state.pkl" in
  can_open_wb fs state_file = true ->
  exists fs' state,
    Algorithm.save_checkpoint can_open_wb self checkpoint_dir fs
    = Ok (checkpoint_dir, fs') /\
    (state_file = checkpoint_dir +:+ "algorithm_state.pkl" \/
     state_file = checkpoint_dir +:+ "/" +:+ "algorithm_state.pkl") /\
    fs' !! state_file = Some (Algorithm.Pickle state) /\
    state = Algorithm.__getstate__ self /\
    state !! "config" = Some (Algorithm.config self) /\
    (forall path, path <> state_file -> fs' !! path = fs !! path).
Proof.
  intros state_file Hopen.
  exists (<[state_file := Algorithm.Pickle (Algorithm.__getstate__ self)]> fs),
         (Algorithm.__getstate__ self).
  split; [|split; [|split; [|split; [|split]]]].
  - unfold Algorithm.save_checkpoint, Algorithm.open_and_dump.
    fold state_file. by rewrite Hopen.
  - unfold state_file. rewrite path_join_state_file.
    destruct (_ || _); [by left | by right].
  - apply lookup_insert_eq.
  - done.
  - apply lookup_singleton_eq.
  - intros path Hne. by apply lookup_insert_ne.
Qed.

End CheckpointProperties.

Section ResourceProperties.
Context (default_attrs : gmap string PyVal).

Lemma comprehension_ok {B : Type} (n : nat) (b : B) :
  Algorithm.comprehension n (Ok b) = Ok (replicate n b).
Proof. induction n as [|n IH]; simpl; [done|]. by rewrite IH. Qed.

(** C8 (as amended): when the configuration, laid over the defaults,
    provides the resource keys and a non-negative [num_remote_workers], the
    request lists exactly one driver bundle, annotated with CPU and GPU
    counts only, followed by [num_remote_workers] worker bundles, each
    annotated with CPU and GPU counts and with the custom resources; the
    strategy is the config's [placement_strategy], "PACK" by default. *)
Theorem default_resource_request_bundles (config : gmap string PyVal)
    (cpu fake_gpus gpu worker_cpu worker_gpu : PyVal) (n : Z)
    (custom : gmap string PyVal) :
  let cf := config ∪ default_attrs in
  cf !! "num_cpus_for_driver" = Some cpu ->
  cf !! "_fake_gpus" = Some fake_gpus ->
  (truthy fake_gpus = false -> cf !! "num_gpus_for_driver" = Some gpu) ->
  cf !! "num_remote_workers" = Some (PyInt n) ->
  0 <= n ->
  cf !! "num_cpus_per_worker" = Some worker_cpu ->
  cf !! "num_gpus_per_worker" = Some worker_gpu ->
  cf !! "custom_resources_per_worker" = Some (PyDict custom) ->
  exists request driver workers,
    Algorithm.default_resource_request default_attrs config = Ok request /\
    Algorithm.bundles request = driver :: workers /\
    driver = <["GPU" := if truthy fake_gpus then PyInt 0 else gpu]> {[ "CPU" := cpu ]} /\
    dom driver = {[ "CPU"; "GPU" ]} /\
    Z.of_nat (length workers) = n /\
    Forall (fun worker =>
              worker = custom ∪ <["GPU" := worker_gpu]> {[ "CPU" := worker_cpu ]} /\
              ResourceSpec.annotated custom worker) workers /\
    Algorithm.strategy request
    = default (PyStr "PACK") (config !! "placement_strategy").
Proof.
  intros cf Hcpu Hfake Hgpu Hn Hpos Hwcpu Hwgpu Hcustom.
  set (driver := <["GPU" := if truthy fake_gpus then PyInt 0 else gpu]>
                   ({[ "CPU" := cpu ]} : gmap string PyVal)).
  set (worker := custom ∪ <["GPU" := worker_gpu]>
                   ({[ "CPU" := worker_cpu ]} : gmap string PyVal)).
  exists {| Algorithm.bundles := driver :: replicate (Z.to_nat n) worker;
            Algorithm.strategy := default (PyStr "PACK") (config !! "placement_strategy") |},
         driver, (replicate (Z.to_nat n) worker).
  split; [|split; [|split; [|split; [|split; [|split]]]]]; try done.
  - unfold Algorithm.default_resource_request, getitem.
    change (config ∪ AlgorithmConfig.to_dict (Algorithm.get_default_config default_attrs))
      with cf.
    rewrite Hcpu, Hfake. simpl.
    assert ((if truthy fake_gpus then Ok (PyInt 0)
             else match cf !! "num_gpus_for_driver" with
                  | Some v => Ok v
                  | None => Raise (KeyError "num_gpus_for_driver")
                  end)
            = Ok (if truthy fake_gpus then PyInt 0 else gpu)) as ->.
    { destruct (truthy fake_gpus); [done|]. by rewrite Hgpu. }
    simpl. rewrite Hn. simpl. rewrite Hwcpu, Hwgpu, Hcustom. simpl.
    by rewrite comprehension_ok.
  - rewrite length_replicate. lia.
  - apply Forall_replicate. split; [done|].
    unfold ResourceSpec.annotated, worker.
    assert (forall key : string,
              is_Some ((<["GPU" := worker_gpu]> ({[ "CPU" := worker_cpu ]}
                          : gmap string PyVal)) !! key) ->
              is_Some ((custom ∪ <["GPU" := worker_gpu]> {[ "CPU" := worker_cpu ]}) !! key))
      as Hkeep.
    { intros key [x Hx]. rewrite lookup_union.
      destruct (custom !! key); rewrite ?Hx; by eexists. }
    split; [|split].
    + apply Hkeep. rewrite lookup_insert_ne by done.
      rewrite lookup_singleton_eq. by eexists.
    + apply Hkeep. rewrite lookup_insert_eq. by eexists.
    + apply map_union_subseteq_l.
Qed.

End ResourceProperties.

Lemma save_checkpoint_writes_state_witness :
  exists fs' state,
    Algorithm.save_checkpoint Scenario.can_open_wb
      (Scenario.algorithm Scenario.full_round) "/tmp/checkpoint_000001" ∅
    = Ok ("/tmp/checkpoint_000001", fs') /\
    ("/tmp/checkpoint_000001/algorithm_state.pkl"
     = "/tmp/checkpoint_000001" +:+ "algorithm_state.pkl" \/
     "/tmp/checkpoint_000001/algorithm_state.pkl"
     = "/tmp/checkpoint_000001" +:+ "/" +:+ "algorithm_state.pkl") /\
    fs' !! "/tmp/checkpoint_000001/algorithm_state.pkl" = Some (Algorithm.Pickle state) /\
    state = Algorithm.__getstate__ (Scenario.algorithm Scenario.full_round) /\
    state !! "config" = Some Scenario.config /\
    (forall path, path <> "/tmp/checkpoint_000001/algorithm_state.pkl" ->
                  fs' !! path = (∅ : gmap string Algorithm.File) !! path).
Proof.
  apply (save_checkpoint_writes_state Scenario.can_open_wb
           (Scenario.algorithm Scenario.full_round) "/tmp/checkpoint_000001" ∅).
  reflexivity.
Defined.

Lemma default_resource_request_bundles_witness :
  exists request driver workers,
    Algorithm.default_resource_request Scenario.default_attrs Scenario.worker_config
    = Ok request /\
    Algorithm.bundles request = driver :: workers /\
    driver = <["GPU" := PyInt 0]> {[ "CPU" := PyInt 1 ]} /\
    dom driver = {[ "CPU"; "GPU" ]} /\
    Z.of_nat (length workers) = 2 /\
    Forall (fun worker =>
              worker = {[ "accelerator" := PyInt 1 ]}
                       ∪ <["GPU" := PyInt 0]> {[ "CPU" := PyInt 1 ]} /\
              ResourceSpec.annotated {[ "accelerator" := PyInt 1 ]} worker) workers /\
    Algorithm.strategy request = PyStr "PACK".
Proof.
  apply (default_resource_request_bundles Scenario.default_attrs Scenario.worker_config
           (PyInt 1) (PyBool false) (PyInt 0) (PyInt 1) (PyInt 0) 2
           {[ "accelerator" := PyInt 1 ]}).
  - reflexivity.
  - reflexivity.
  - intros _. reflexivity.
  - reflexivity.
  - discriminate.
  - reflexivity.
  - reflexivity.
  - reflexivity.
Defined.

(** C8 (as stated) fails: with two remote workers that each need an
    accelerator, the driver bundle carries CPU and GPU only, no
    accelerator. *)
Lemma default_resource_request_driver_not_annotated :
  (exists request driver workers,
     Algorithm.default_resource_request Scenario.default_attrs Scenario.worker_config
     = Ok request /\
     Algorithm.bundles request = driver :: workers /\
     driver !! "accelerator" = None) /\
  ~ ResourceSpec.one_bundle_per_worker Scenario.default_attrs Scenario.worker_config.
Proof.
  split.
  - eexists _, _, _. split; [vm_compute; reflexivity|].
    split; [reflexivity|]. vm_compute. reflexivity.
  - intros (request & custom & n & driver & workers
            & Hreq & Hcustom & _ & Hbundles & _ & Hall & _).
    assert (Algorithm.default_resource_request Scenario.default_attrs
              Scenario.worker_config
            = Ok {| Algorithm.bundles :=
                      [ <["GPU" := PyInt 0]> {[ "CPU" := PyInt 1 ]};
                        {[ "accelerator" := PyInt 1 ]}
                        ∪ <["GPU" := PyInt 0]> {[ "CPU" := PyInt 1 ]};
                        {[ "accelerator" := PyInt 1 ]}
                        ∪ <["GPU" := PyInt 0]> {[ "CPU" := PyInt 1 ]} ];
                    Algorithm.strategy := PyStr "PACK" |}) as Hrun
      by (vm_compute; reflexivity).
    rewrite Hrun in Hreq. injection Hreq as <-.
    simpl in Hbundles. injection Hbundles as <- _.
    assert ((Scenario.worker_config ∪ Scenario.default_attrs)
              !! "custom_resources_per_worker"
            = Some (PyDict {[ "accelerator" := PyInt 1 ]})) as Hset
      by (vm_compute; reflexivity).
    rewrite Hset in Hcustom. injection Hcustom as <-.
    apply Forall_cons in Hall as [(_ & _ & Hsub) _].
    pose proof (lookup_weaken
                  ({[ "accelerator" := PyInt 1 ]} : gmap string PyVal) _
                  "accelerator" (PyInt 1) (lookup_singleton_eq _ _) Hsub) as Hacc.
    vm_compute in Hacc. discriminate Hacc.
Qed.

(** * Further properties of the adversary *)
Section AdversaryRounds.
Context {Scalar : Type} {ClientId : Type} `{Countable ClientId}.

Implicit Types (manager : gmap ClientId loc) (heap : gmap loc (Client.t ClientId)).
Implicit Types (results : list (Algorithm.Result Scalar ClientId)).
Implicit Types (algorithm : Algorithm.t Scalar ClientId).

(** The loop over a concatenation is the loop over the first part, continued
    over the second. *)
Lemma collect_updates_app algorithm heap results results' updates :
  Adversary.collect_updates algorithm heap (results ++ results') updates
  = Adversary.collect_updates algorithm heap results updates
    ≫= Adversary.collect_updates algorithm heap results'.
Proof.
  revert updates. induction results as [|r rs IH]; intros updates; simpl; [done|].
  destruct (Algorithm.attr "client_manager" (Algorithm.client_manager algorithm))
    as [manager|]; simpl; [|done].
  destruct (Adversary.get_id r) as [id|]; simpl; [|done].
  destruct (ClientManager.get_client_by_id manager heap id) as [client|]; simpl; [|done].
  destruct (Adversary.get_update r) as [grad|]; [|apply IH].
  destruct (negb (Client.is_malicious client)); apply IH.
Qed.

(** X1: a result without the key "id" makes [get_benign_updates] raise
    KeyError "id" when the loop reaches it, whatever its pseudo-gradient is
    (None included) and whatever results follow. *)
Theorem get_benign_updates_missing_id self algorithm heap manager results r results' :
  Algorithm.local_results algorithm = Some (results ++ r :: results') ->
  Algorithm.client_manager algorithm = Some manager ->
  Forall (fun r => is_Some (Round.owner manager heap r)) results ->
  Algorithm.result_id r = None ->
  Adversary.get_benign_updates self algorithm heap = Raise (KeyError "id").
Proof.
  intros Hres Hm Hwf Hid. unfold Adversary.get_benign_updates.
  rewrite Hres. simpl. rewrite collect_updates_app.
  rewrite (collect_updates_contributed _ _ _ _ _ Hm Hwf). simpl.
  rewrite Hm. simpl. unfold Adversary.get_id. by rewrite Hid.
Qed.



(** A client the manager hands out is the owner of the result. *)
Lemma get_client_by_id_owner manager heap (r : Algorithm.Result Scalar ClientId)
    id client :
  Algorithm.result_id r = Some id ->
  ClientManager.get_client_by_id manager heap id = Ok client ->
  Round.owner manager heap r = Some client.
Proof.
  intros Hid. unfold ClientManager.get_client_by_id, Round.owner.
  rewrite Hid. simpl.
  destruct (manager !! id) as [l|]; simpl; [|done].
  destruct (heap !! l); [|done]. by intros [= <-].
Qed.

Lemma collect_updates_same_view algorithm algorithm' heap manager
    results results' updates :
  Algorithm.client_manager algorithm = Some manager ->
  Algorithm.client_manager algorithm' = Some manager ->
  Forall2 (Round.same_benign_view manager heap) results results' ->
  Adversary.collect_updates algorithm heap results updates
  = Adversary.collect_updates algorithm' heap results' updates.
Proof.
  intros Hm Hm' Hview. revert updates.
  induction Hview as [|r r' rs rs' [Hid Hr] _ IH]; intros updates; simpl; [done|].
  rewrite Hm, Hm'. simpl. unfold Adversary.get_id. rewrite <- Hid.
  destruct (Algorithm.result_id r) as [id|] eqn:Hrid; simpl; [|done].
  destruct (ClientManager.get_client_by_id manager heap id) as [client|] eqn:Hc;
    simpl; [|done].
  destruct Hr as [Hmal|Hsame].
  - unfold Round.malicious in Hmal.
    rewrite (get_client_by_id_owner _ _ _ _ _ Hrid Hc) in Hmal. rewrite Hmal. simpl.
    destruct (Adversary.get_update r), (Adversary.get_update r'); apply IH.
  - rewrite <- Hsame.
    destruct (Adversary.get_update r) as [grad|]; [|apply IH].
    destruct (negb (Client.is_malicious client)); apply IH.
Qed.

(** X3: what the results of malicious clients carry as pseudo-gradient has
    no influence on [get_benign_updates]: two rounds that agree on the ids
    and on every pseudo-gradient of a client that is not malicious give the
    same outcome. *)
Theorem get_benign_updates_ignores_malicious self algorithm algorithm' heap manager
    results results' :
  Algorithm.local_results algorithm = Some results ->
  Algorithm.local_results algorithm' = Some results' ->
  Algorithm.client_manager algorithm = Some manager ->
  Algorithm.client_manager algorithm' = Some manager ->
  Forall2 (Round.same_benign_view manager heap) results results' ->
  Adversary.get_benign_updates self algorithm heap
  = Adversary.get_benign_updates self algorithm' heap.
Proof.
  intros Hres Hres' Hm Hm' Hview. unfold Adversary.get_benign_updates.
  rewrite Hres, Hres'. simpl.
  by rewrite (collect_updates_same_view _ _ _ _ _ _ _ Hm Hm' Hview).
Qed.

(** After [on_algorithm_start], a result is benign exactly if it was benign
    before and its client is not one of the adversary's. *)
Lemma benign_after_start (self : Adversary.t) algorithm heap manager
    (r : Algorithm.Result Scalar ClientId) :
  Round.benign manager (Adversary.on_algorithm_start self algorithm heap) r
  = negb (Round.owned self manager r) && Round.benign manager heap r.
Proof.
  unfold Round.benign, Round.owner, Round.owned.
  destruct (Algorithm.result_id r) as [id|]; simpl; [|done].
  destruct (manager !! id) as [l|]; simpl; [|done].
  rewrite on_algorithm_start_lookup.
  destruct (bool_decide (l ∈ Adversary.clients self)); simpl; [|done].
  by destruct (heap !! l).
Qed.

Lemma contributed_after_start (self : Adversary.t) algorithm heap manager results :
  Round.contributed manager (Adversary.on_algorithm_start self algorithm heap) results
  = Round.contributed manager heap
      (List.filter (fun r => negb (Round.owned self manager r)) results).
Proof.
  induction results as [|r rs IH]; [done|].
  rewrite contributed_cons, IH, benign_after_start. cbn [List.filter].
  destruct (Round.owned self manager r); cbn [negb andb]; [done|].
  by rewrite contributed_cons.
Qed.

Lemma owner_after_start (self : Adversary.t) algorithm heap manager
    (r : Algorithm.Result Scalar ClientId) :
  is_Some (Round.owner manager heap r) ->
  is_Some (Round.owner manager (Adversary.on_algorithm_start self algorithm heap) r).
Proof.
  unfold Round.owner.
  destruct (Algorithm.result_id r) as [id|]; simpl; [|done].
  destruct (manager !! id) as [l|]; simpl; [|done].
  rewrite on_algorithm_start_lookup. intros [c ->].
  destruct (bool_decide _); by eexists.
Qed.

(** X4: once [on_algorithm_start] has run, [get_benign_updates] stacks what
    the benign clients contributed among the results that do not belong to
    the adversary's own clients: nothing recorded for an owned client reaches
    the stack, and the ValueError is raised when nothing else is left. *)
Theorem get_benign_updates_after_start (self : Adversary.t) algorithm heap manager
    results :
  Algorithm.local_results algorithm = Some results ->
  Algorithm.client_manager algorithm = Some manager ->
  Forall (fun r => is_Some (Round.owner manager heap r)) results ->
  Adversary.get_benign_updates self algorithm
    (Adversary.on_algorithm_start self algorithm heap)
  = match Round.contributed manager heap
            (List.filter (fun r => negb (Round.owned self manager r)) results) with
    | [] => Raise Adversary.no_benign_updates
    | rows => vstack rows
    end.
Proof.
  intros Hres Hm Hwf.
  rewrite (get_benign_updates_unfold self algorithm _ manager results Hres Hm).
  - by rewrite contributed_after_start.
  - eapply Forall_impl; [exact Hwf|]. intros r. apply owner_after_start.
Qed.

(** Running [on_algorithm_start] a second time changes nothing. *)
Lemma on_algorithm_start_idempotent (self : Adversary.t) algorithm algorithm' heap :
  Adversary.on_algorithm_start self algorithm'
    (Adversary.on_algorithm_start self algorithm heap)
  = Adversary.on_algorithm_start self algorithm heap.
Proof.
  apply map_eq. intros l. rewrite !on_algorithm_start_lookup.
  destruct (bool_decide (l ∈ Adversary.clients self)); [|done].
  by destruct (heap !! l).
Qed.

End AdversaryRounds.

Lemma get_benign_updates_missing_id_witness :
  Adversary.get_benign_updates Scenario.adversary
    (Scenario.algorithm Scenario.anonymous_round) Scenario.heap
  = Raise (KeyError "id").
Proof.
  apply (get_benign_updates_missing_id Scenario.adversary
           (Scenario.algorithm Scenario.anonymous_round) Scenario.heap
           Scenario.manager
           [Scenario.result 0 (Some (Some [1; 2]))]
           {| Algorithm.result_id := None; Algorithm.result_update := Some None |}
           [Scenario.result 2 (Some (Some [5; 6]))]).
  - reflexivity.
  - reflexivity.
  - repeat constructor. vm_compute. eexists. reflexivity.
  - reflexivity.
Defined.


Lemma get_benign_updates_ignores_malicious_witness :
  Adversary.get_benign_updates Scenario.adversary
    (Scenario.algorithm Scenario.full_round) Scenario.heap
  = Adversary.get_benign_updates Scenario.adversary
      (Scenario.algorithm Scenario.poisoned_round) Scenario.heap.
Proof.
  apply (get_benign_updates_ignores_malicious Scenario.adversary
           (Scenario.algorithm Scenario.full_round)
           (Scenario.algorithm Scenario.poisoned_round) Scenario.heap
           Scenario.manager Scenario.full_round Scenario.poisoned_round).
  - reflexivity.
  - reflexivity.
  - reflexivity.
  - reflexivity.
  - repeat constructor; first [by right | by left].
Defined.

Lemma get_benign_updates_after_start_witness :
  Adversary.get_benign_updates Scenario.adversary
    (Scenario.algorithm Scenario.full_round)
    (Adversary.on_algorithm_start Scenario.adversary
       (Scenario.algorithm Scenario.full_round) Scenario.initial_heap)
  = Ok [[1; 2]; [3; 4]].
Proof.
  rewrite (get_benign_updates_after_start Scenario.adversary
             (Scenario.algorithm Scenario.full_round) Scenario.initial_heap
             Scenario.manager Scenario.full_round).
  - vm_compute. reflexivity.
  - reflexivity.
  - reflexivity.
  - repeat constructor; vm_compute; eexists; reflexivity.
Defined.

(** * Further properties of AdversaryConfig *)
Section AdversaryConfigObjects.

Implicit Types (store : gmap loc AdversaryConfig.Instance) (c : loc).
Implicit Types (inst : AdversaryConfig.Instance).
Implicit Types (items : list (string * PyVal)).

(** On items that name no guarded attribute, the loop writes one entry of
    the instance dictionary after the other. *)
Lemma assign_items_plain store c inst body items :
  store !! c = Some inst ->
  AdversaryConfig.class_body (AdversaryConfig.inst_class inst) = Some body ->
  Forall (fun item => item.1 ∉ AdversaryConfig.guarded) items ->
  AdversaryConfig.assign_items store c items
  = Ok (<[c := {| AdversaryConfig.inst_class := AdversaryConfig.inst_class inst;
                  AdversaryConfig.inst_dict :=
                    foldl (fun d item => <[item.1 := item.2]> d)
                          (AdversaryConfig.inst_dict inst) items |}]> store).
Proof.
  intros Hc Hbody Hplain. revert store inst Hc Hbody.
  induction Hplain as [|[k v] items Hk _ IH]; intros store inst Hc Hbody; simpl.
  - f_equal. symmetry. apply insert_id. rewrite Hc. by destruct inst.
  - rewrite (setattr_plain store c inst body k v Hc Hbody Hk). simpl.
    rewrite (IH _ {| AdversaryConfig.inst_class := AdversaryConfig.inst_class inst;
                     AdversaryConfig.inst_dict :=
                       <[k := v]> (AdversaryConfig.inst_dict inst) |});
      [|apply lookup_insert_eq|done].
    simpl. by rewrite insert_insert_eq.
Qed.

(** For the items of a dictionary (no key twice) the order of the writes
    does not matter. *)
Lemma foldl_insert_items (d : gmap string PyVal) items :
  NoDup items.*1 ->
  foldl (fun d item => <[item.1 := item.2]> d) d items = list_to_map items ∪ d.
Proof.
  revert d. induction items as [|[k v] items IH]; intros d Hnodup.
  - simpl. by rewrite (left_id_L ∅ (∪)).
  - rewrite fmap_cons in Hnodup. apply NoDup_cons in Hnodup as [Hk Hnodup].
    cbn [foldl list_to_map foldr fst snd uncurry]. rewrite (IH _ Hnodup).
    rewrite <- insert_union_l. symmetry.
    apply insert_union_r. by apply not_elem_of_list_to_map_1.
Qed.

Lemma update_from_dict_plain store c inst body items :
  store !! c = Some inst ->
  AdversaryConfig.class_body (AdversaryConfig.inst_class inst) = Some body ->
  NoDup items.*1 ->
  Forall (fun item => item.1 ∉ AdversaryConfig.guarded) items ->
  AdversaryConfig.update_from_dict store c items
  = Ok (c, <[c := {| AdversaryConfig.inst_class := AdversaryConfig.inst_class inst;
                     AdversaryConfig.inst_dict :=
                       list_to_map items ∪ AdversaryConfig.inst_dict inst |}]> store).
Proof.
  intros Hc Hbody Hnodup Hplain. unfold AdversaryConfig.update_from_dict.
  rewrite (assign_items_plain store c inst body items Hc Hbody Hplain). simpl.
  by rewrite foldl_insert_items.
Qed.

(** Reading an attribute other than [__dict__] looks at the class and at one
    entry of the instance dictionary only. *)
Lemma getattr_local store store' c inst inst' (k : string) :
  store !! c = Some inst ->
  store' !! c = Some inst' ->
  AdversaryConfig.inst_class inst' = AdversaryConfig.inst_class inst ->
  AdversaryConfig.inst_dict inst' !! k = AdversaryConfig.inst_dict inst !! k ->
  k <> "__dict__" ->
  AdversaryConfig.getattr store' c k = AdversaryConfig.getattr store c k.
Proof.
  intros Hc Hc' Hcls Hk Hne. unfold AdversaryConfig.getattr.
  rewrite Hc, Hc', Hcls, Hk.
  destruct (AdversaryConfig.class_body _); [|done].
  destruct (String.eqb_spec k "__dict__"); [done|].
  by destruct (String.eqb k "__class__").
Qed.

(** X5: [update_from_dict] with a dictionary that names no guarded attribute
    ([__class__], [__dict__], [__weakref__]) lays it over the attributes of
    [c]: every key of the dictionary then reads as given, every other
    attribute of [c] keeps its value, every other object is untouched, and
    the object returned is [c]. *)
Theorem update_from_dict_merges store c inst items :
  store !! c = Some inst ->
  AdversaryConfig.inst_class inst = "AdversaryConfig" ->
  NoDup items.*1 ->
  Forall (fun item => item.1 ∉ AdversaryConfig.guarded) items ->
  exists store',
    AdversaryConfig.update_from_dict store c items = Ok (c, store') /\
    AdversaryConfig.to_dict store' c
    = list_to_map items ∪ AdversaryConfig.to_dict store c /\
    (forall k v, (k, v) ∈ items -> AdversaryConfig.getattr store' c k = Ok v) /\
    (forall k, k ∉ items.*1 -> k <> "__dict__" ->
       AdversaryConfig.getattr store' c k = AdversaryConfig.getattr store c k) /\
    (forall c', c' <> c -> store' !! c' = store !! c').
Proof.
  intros Hc Hcls Hnodup Hplain.
  assert (AdversaryConfig.class_body (AdversaryConfig.inst_class inst)
          = Some AdversaryConfig.methods) as Hbody by (by rewrite Hcls).
  eexists. split; [by apply (update_from_dict_plain store c inst AdversaryConfig.methods items)|].
  split; [|split; [|split]].
  - unfold AdversaryConfig.to_dict. by rewrite lookup_insert_eq, Hc.
  - intros k v Hin. eapply getattr_plain.
    + apply lookup_insert_eq.
    + exact Hbody.
    + rewrite Forall_forall in Hplain. apply (Hplain (k, v) Hin).
    + simpl. apply lookup_union_Some_l. by apply elem_of_list_to_map_1.
  - intros k Hk Hne. eapply getattr_local; [exact Hc|apply lookup_insert_eq|done| |done].
    simpl. apply lookup_union_r. by apply not_elem_of_list_to_map_1.
  - intros c' Hne. by rewrite lookup_insert_ne.
Qed.

(** X6: for dictionaries that name no guarded attribute, two updates in a
    row leave the second dictionary laid over the first, laid over the
    attributes; and they amount to the one update with the merged
    dictionary. The empty dictionary changes nothing. *)
Theorem update_from_dict_compose store c inst (first second : list (string * PyVal)) :
  store !! c = Some inst ->
  AdversaryConfig.inst_class inst = "AdversaryConfig" ->
  NoDup first.*1 -> NoDup second.*1 ->
  Forall (fun item => item.1 ∉ AdversaryConfig.guarded) first ->
  Forall (fun item => item.1 ∉ AdversaryConfig.guarded) second ->
  exists store1 store2,
    AdversaryConfig.update_from_dict store c first = Ok (c, store1) /\
    AdversaryConfig.update_from_dict store1 c second = Ok (c, store2) /\
    AdversaryConfig.to_dict store2 c
    = list_to_map second ∪ (list_to_map first ∪ AdversaryConfig.to_dict store c) /\
    (forall merged : list (string * PyVal),
       NoDup merged.*1 ->
       Forall (fun item => item.1 ∉ AdversaryConfig.guarded) merged ->
       (list_to_map merged : gmap string PyVal)
       = list_to_map second ∪ list_to_map first ->
       AdversaryConfig.update_from_dict store c merged = Ok (c, store2)) /\
    AdversaryConfig.update_from_dict store c [] = Ok (c, store).
Proof.
  intros Hc Hcls Hn1 Hn2 Hp1 Hp2.
  assert (AdversaryConfig.class_body (AdversaryConfig.inst_class inst)
          = Some AdversaryConfig.methods) as Hbody by (by rewrite Hcls).
  eexists _, _.
  split; [by apply (update_from_dict_plain store c inst AdversaryConfig.methods first)|].
  split.
  { rewrite (update_from_dict_plain _ c _ AdversaryConfig.methods second
               (lookup_insert_eq _ _ _)); [|done..].
    simpl. by rewrite insert_insert_eq. }
  split; [|split].
  - unfold AdversaryConfig.to_dict. by rewrite lookup_insert_eq, Hc.
  - intros merged Hn Hp Hmerged.
    rewrite (update_from_dict_plain store c inst AdversaryConfig.methods merged
               Hc Hbody Hn Hp).
    by rewrite Hmerged, (assoc_L (∪)).
  - done.
Qed.

(** What the constructor returns. *)
Lemma init_result store (adversary_cls config : option PyVal) :
  AdversaryConfig.__init__ store adversary_cls config
  = Ok (fresh (dom store),
        <[fresh (dom store) :=
            {| AdversaryConfig.inst_class := "AdversaryConfig";
               AdversaryConfig.inst_dict :=
                 {[ "adversary_class" := default (PyClass "Adversary") adversary_cls;
                    "global_config" := default PyNone config ]} |}]> store).
Proof.
  unfold AdversaryConfig.__init__, AdversaryConfig.setattr.
  rewrite lookup_insert_eq. simpl. rewrite lookup_insert_eq. simpl.
  rewrite !insert_insert_eq. do 3 f_equal.
Qed.

(** X7: the constructor allocates an object that was not in the store, leaves
    every existing object as it was, and gives the new object exactly the two
    attributes [adversary_class] (the class Adversary unless given) and
    [global_config] (None unless given). *)
Theorem init_allocates store (adversary_cls config : option PyVal) :
  exists self store',
    AdversaryConfig.__init__ store adversary_cls config = Ok (self, store') /\
    store !! self = None /\
    AdversaryConfig.inst_class <$> store' !! self = Some "AdversaryConfig" /\
    AdversaryConfig.to_dict store' self
    = {[ "adversary_class" := default (PyClass "Adversary") adversary_cls;
         "global_config" := default PyNone config ]} /\
    (forall c, c <> self -> store' !! c = store !! c).
Proof.
  eexists _, _. split; [apply init_result|].
  split; [|split; [|split]].
  - apply not_elem_of_dom. apply is_fresh.
  - by rewrite lookup_insert_eq.
  - unfold AdversaryConfig.to_dict. by rewrite lookup_insert_eq.
  - intros c Hne. by rewrite lookup_insert_ne.
Qed.

Section Building.
Context {A : Type}.
Context (from_config : PyVal -> gmap string PyVal -> list loc -> Outcome A).

(** X8: [build] on a config that was constructed and then updated from a
    dictionary naming neither a guarded attribute nor [to_dict] hands to
    [from_config] the class now stored under [adversary_class] (the
    dictionary's, if it names one) and all remaining attributes, those added
    by the update included; the [pop] does not raise. When the dictionary
    binds [to_dict] to a value that cannot be called, [build] raises
    TypeError instead. *)
Theorem build_after_update store (adversary_cls config : option PyVal)
    (items : list (string * PyVal)) (clients : list loc) :
  NoDup items.*1 ->
  Forall (fun item => item.1 ∉ AdversaryConfig.guarded) items ->
  exists self store' store'',
    AdversaryConfig.__init__ store adversary_cls config = Ok (self, store') /\
    AdversaryConfig.update_from_dict store' self items = Ok (self, store'') /\
    ("to_dict" ∉ items.*1 ->
     AdversaryConfig.build from_config store'' self clients
     = from_config
         (default (default (PyClass "Adversary") adversary_cls)
                  ((list_to_map items : gmap string PyVal) !! "adversary_class"))
         (delete "adversary_class"
            (list_to_map items ∪ {[ "global_config" := default PyNone config ]}))
         clients) /\
    (forall v, ("to_dict", v) ∈ items ->
       (forall cls, v <> PyClass cls) -> (forall name, v <> PyBoundMethod name) ->
       AdversaryConfig.build from_config store'' self clients
       = Raise (TypeError "object is not callable")).
Proof.
  intros Hnodup Hplain. eexists _, _, _.
  split; [apply init_result|].
  split.
  { apply (update_from_dict_plain _ _ _ AdversaryConfig.methods items
             (lookup_insert_eq _ _ _)); done. }
  set (given := default (PyClass "Adversary") adversary_cls).
  split.
  - intros Hto_dict.
    assert ((list_to_map items
             ∪ ({[ "adversary_class" := given;
                   "global_config" := default PyNone config ]} : gmap string PyVal))
              !! "to_dict" = None) as Hnone.
    { rewrite lookup_union_r by (by apply not_elem_of_list_to_map_1).
      rewrite lookup_insert_ne by done. by rewrite lookup_singleton_ne. }
    unfold AdversaryConfig.build, AdversaryConfig.getattr, AdversaryConfig.to_dict.
    rewrite lookup_insert_eq. simpl. rewrite Hnone. simpl.
    assert ((list_to_map items
             ∪ {[ "adversary_class" := given; "global_config" := default PyNone config ]})
              !! "adversary_class"
            = Some (default given
                      ((list_to_map items : gmap string PyVal) !! "adversary_class")))
      as ->.
    { rewrite lookup_union, lookup_insert_eq.
      by destruct ((list_to_map items : gmap string PyVal) !! "adversary_class"). }
    rewrite !delete_union. by rewrite delete_insert_eq.
  - intros v Hin Hcls Hmeth.
    assert ((list_to_map items
             ∪ ({[ "adversary_class" := given;
                   "global_config" := default PyNone config ]} : gmap string PyVal))
              !! "to_dict" = Some v) as Hsome.
    { apply lookup_union_Some_l. by apply elem_of_list_to_map_1. }
    unfold AdversaryConfig.build, AdversaryConfig.getattr.
    rewrite lookup_insert_eq. simpl. rewrite Hsome. simpl.
    destruct v as [| | | |cls|name|]; try done.
    + by destruct (Hcls cls).
    + by destruct (Hmeth name).
Qed.

End Building.

End AdversaryConfigObjects.

Lemma update_from_dict_merges_witness :
  exists store',
    AdversaryConfig.update_from_dict Scenario.adversary_config.2
      Scenario.adversary_config.1 [("scale", PyInt 3); ("global_config", PyInt 1)]
    = Ok (Scenario.adversary_config.1, store') /\
    AdversaryConfig.to_dict store' Scenario.adversary_config.1
    = {[ "adversary_class" := PyClass "Adversary";
         "global_config" := PyInt 1;
         "scale" := PyInt 3 ]}.
Proof.
  destruct (update_from_dict_merges Scenario.adversary_config.2
              Scenario.adversary_config.1
              {| AdversaryConfig.inst_class := "AdversaryConfig";
                 AdversaryConfig.inst_dict :=
                   {[ "adversary_class" := PyClass "Adversary";
                      "global_config" := PyNone ]} |}
              [("scale", PyInt 3); ("global_config", PyInt 1)])
    as (store' & Hupdate & Hdict & _).
  - vm_compute. reflexivity.
  - reflexivity.
  - repeat constructor; vm_compute; intros Hin;
      repeat (apply elem_of_cons in Hin as [Hin|Hin]; [discriminate Hin|]);
      by apply elem_of_nil in Hin.
  - repeat constructor; vm_compute; intros Hin;
      repeat (apply elem_of_cons in Hin as [Hin|Hin]; [discriminate Hin|]);
      by apply elem_of_nil in Hin.
  - exists store'. split; [exact Hupdate|]. rewrite Hdict. vm_compute. reflexivity.
Defined.

Lemma update_from_dict_compose_witness :
  exists store1 store2,
    AdversaryConfig.update_from_dict Scenario.adversary_config.2
      Scenario.adversary_config.1 [("scale", PyInt 3)]
    = Ok (Scenario.adversary_config.1, store1) /\
    AdversaryConfig.update_from_dict store1 Scenario.adversary_config.1
      [("scale", PyInt 4); ("seed", PyInt 0)]
    = Ok (Scenario.adversary_config.1, store2) /\
    AdversaryConfig.update_from_dict Scenario.adversary_config.2
      Scenario.adversary_config.1 [("seed", PyInt 0); ("scale", PyInt 4)]
    = Ok (Scenario.adversary_config.1, store2).
Proof.
  destruct (update_from_dict_compose Scenario.adversary_config.2
              Scenario.adversary_config.1
              {| AdversaryConfig.inst_class := "AdversaryConfig";
                 AdversaryConfig.inst_dict :=
                   {[ "adversary_class" := PyClass "Adversary";
                      "global_config" := PyNone ]} |}
              [("scale", PyInt 3)] [("scale", PyInt 4); ("seed", PyInt 0)])
    as (store1 & store2 & Hfirst & Hsecond & _ & Hmerged & _).
  - vm_compute. reflexivity.
  - reflexivity.
  - repeat constructor; vm_compute; intros Hin;
      repeat (apply elem_of_cons in Hin as [Hin|Hin]; [discriminate Hin|]);
      by apply elem_of_nil in Hin.
  - repeat constructor; vm_compute; intros Hin;
      repeat (apply elem_of_cons in Hin as [Hin|Hin]; [discriminate Hin|]);
      by apply elem_of_nil in Hin.
  - repeat constructor; vm_compute; intros Hin;
      repeat (apply elem_of_cons in Hin as [Hin|Hin]; [discriminate Hin|]);
      by apply elem_of_nil in Hin.
  - repeat constructor; vm_compute; intros Hin;
      repeat (apply elem_of_cons in Hin as [Hin|Hin]; [discriminate Hin|]);
      by apply elem_of_nil in Hin.
  - exists store1, store2. split; [exact Hfirst|]. split; [exact Hsecond|].
    apply Hmerged.
    + repeat constructor; vm_compute; intros Hin;
        repeat (apply elem_of_cons in Hin as [Hin|Hin]; [discriminate Hin|]);
        by apply elem_of_nil in Hin.
    + repeat constructor; vm_compute; intros Hin;
        repeat (apply elem_of_cons in Hin as [Hin|Hin]; [discriminate Hin|]);
        by apply elem_of_nil in Hin.
    + vm_compute. reflexivity.
Defined.

Lemma build_after_update_witness :
  exists self store' store'',
    AdversaryConfig.__init__ ∅ None None = Ok (self, store') /\
    AdversaryConfig.update_from_dict store' self [("global_config", PyInt 1)]
    = Ok (self, store'') /\
    AdversaryConfig.build Scenario.from_config store'' self [3%positive]
    = Ok (Adversary.__init__ [3%positive] (Some (PyInt 1)) None).
Proof.
  destruct (build_after_update Scenario.from_config ∅ None None
              [("global_config", PyInt 1)] [3%positive])
    as (self & store' & store'' & Hinit & Hupdate & Hbuild).
  - repeat constructor; vm_compute; intros Hin;
      repeat (apply elem_of_cons in Hin as [Hin|Hin]; [discriminate Hin|]);
      by apply elem_of_nil in Hin.
  - repeat constructor; vm_compute; intros Hin;
      repeat (apply elem_of_cons in Hin as [Hin|Hin]; [discriminate Hin|]);
      by apply elem_of_nil in Hin.
  - exists self, store', store''. split; [exact Hinit|]. split; [exact Hupdate|].
    rewrite (proj1 Hbuild).
    + vm_compute. reflexivity.
    + vm_compute. intros Hin.
      repeat (apply elem_of_cons in Hin as [Hin|Hin]; [discriminate Hin|]).
      by apply elem_of_nil in Hin.
Defined.

(** * Further properties of the constructor and of setup *)
Section AlgorithmConfigMerging.

Implicit Types (c : AlgorithmConfig.t).

(** On a config that is not frozen, the update lays the dictionary over the
    attributes. *)
Lemma update_from_dict_unfrozen c (d : gmap string PyVal) :
  AlgorithmConfig.is_frozen c = false ->
  AlgorithmConfig.update_from_dict c d
  = Ok (AlgorithmConfig.mk (d ∪ AlgorithmConfig.attrs c) false).
Proof.
  intros Hfrozen. unfold AlgorithmConfig.update_from_dict.
  apply (map_fold_weak_ind
    (fun (r : Outcome AlgorithmConfig.t) (m : gmap string PyVal) =>
       r = Ok (AlgorithmConfig.mk (m ∪ AlgorithmConfig.attrs c) false))).
  - rewrite (left_id_L ∅ (∪)). destruct c as [attrs frozen]. simpl in *. by subst.
  - intros k v m r _ ->. simpl. unfold AlgorithmConfig.setattr. simpl.
    by rewrite insert_union_l.
Qed.

End AlgorithmConfigMerging.

Section LifecycleEdges.
Context {Scalar : Type} {ClientId : Type} `{Countable ClientId}.
Context (default_attrs : gmap string PyVal).
Context (get_client_config : AlgorithmConfig.t -> option PyVal).
Context (get_dataset : PyVal -> option (Algorithm.Dataset ClientId)).
Context (client_manager_cls :
  list ClientId -> PyVal -> gmap loc (Client.t ClientId) ->
  option (gmap ClientId loc * gmap loc (Client.t ClientId))).

Implicit Types (self : Algorithm.t Scalar ClientId).
Implicit Types (heap : gmap loc (Client.t ClientId)).
Implicit Types (cls : Algorithm.Class Scalar ClientId).

Local Abbreviation setup :=
  (Algorithm.setup default_attrs get_client_config get_dataset client_manager_cls).
Local Abbreviation init :=
  (Algorithm.__init__ default_attrs get_client_config get_dataset client_manager_cls).
Local Abbreviation Trainable_init :=
  (Algorithm.Trainable_init default_attrs get_client_config get_dataset
     client_manager_cls).

(** The constructor, once the config object to use has been settled. *)
Lemma init_config_object cls (c : AlgorithmConfig.t) heap :
  init cls (Algorithm.ConfigObject c) heap
  = algo_class ← AlgorithmConfig.getattr c "algo_class";
    config ← match algo_class with
             | PyNone => AlgorithmConfig.setattr c "algo_class"
                           (PyClass (Algorithm.cls_name cls))
             | _ => Ok c
             end;
    '(self, heap') ← Trainable_init (AlgorithmConfig.freeze config) heap;
    if Algorithm.cls_training_iteration_is_int cls then Ok (self, heap')
    else Raise (AssertionError
                  "Your Algorithm's `training_iteration` seems to be overridden").
Proof. reflexivity. Qed.

(** An empty dictionary counts as no config at all: the constructor then
    runs on the default config, exactly as when nothing is passed. *)
Lemma init_empty_dict_is_default cls heap :
  init cls (Algorithm.ConfigDict ∅) heap
  = init cls (Algorithm.ConfigObject (Algorithm.get_default_config default_attrs)) heap /\
  init cls Algorithm.NoConfig heap
  = init cls (Algorithm.ConfigObject (Algorithm.get_default_config default_attrs)) heap.
Proof. split; reflexivity. Qed.

(** A dictionary with a key is laid over the default config first. *)
Lemma init_config_dict cls (d : gmap string PyVal) heap :
  d <> ∅ ->
  init cls (Algorithm.ConfigDict d) heap
  = init cls (Algorithm.ConfigObject
                (AlgorithmConfig.mk (d ∪ default_attrs) false)) heap.
Proof.
  intros Hne. unfold Algorithm.__init__.
  rewrite bool_decide_eq_false_2 by done.
  by rewrite update_from_dict_unfrozen.
Qed.

Lemma Trainable_init_config (c : AlgorithmConfig.t) heap self heap' :
  Trainable_init c heap = Ok (self, heap') ->
  Algorithm.config self = c.
Proof.
  unfold Algorithm.Trainable_init. intros Hsetup.
  by rewrite (setup_keeps_config _ _ _ _ _ _ _ _ _ Hsetup).
Qed.

(** X9: a class that defines [training_iteration] itself cannot be
    constructed: whatever config is passed, the constructor raises. *)
Theorem init_rejects_shadowed_training_iteration cls
    (config_arg : Algorithm.ConfigArg) heap :
  Algorithm.cls_training_iteration_is_int cls = false ->
  exists e, init cls config_arg heap = Raise e.
Proof.
  intros Hshadow. unfold Algorithm.__init__. rewrite Hshadow.
  match goal with
  | |- context [mbind _ ?m] => destruct m as [config|]; simpl; [|by eexists]
  end.
  destruct (AlgorithmConfig.getattr config "algo_class") as [ac|]; simpl; [|by eexists].
  match goal with
  | |- context [mbind _ ?m] => destruct m as [config'|]; simpl; [|by eexists]
  end.
  destruct (Algorithm.Trainable_init _ _ _ _ _ _) as [[self heap']|]; simpl;
    by eexists.
Qed.

Lemma init_config_object_result cls (c : AlgorithmConfig.t) heap self heap'
    (algo_class : PyVal) :
  AlgorithmConfig.getattr c "algo_class" = Ok algo_class ->
  init cls (Algorithm.ConfigObject c) heap = Ok (self, heap') ->
  (algo_class <> PyNone ->
   Algorithm.config self = AlgorithmConfig.freeze c) /\
  (algo_class = PyNone ->
   AlgorithmConfig.is_frozen c = false /\
   Algorithm.config self
   = AlgorithmConfig.mk
       (<["algo_class" := PyClass (Algorithm.cls_name cls)]> (AlgorithmConfig.attrs c))
       true).
Proof.
  intros Hac. rewrite init_config_object, Hac. simpl. intros Hinit. split.
  - intros Hset.
    assert (match algo_class with
            | PyNone => AlgorithmConfig.setattr c "algo_class"
                          (PyClass (Algorithm.cls_name cls))
            | _ => Ok c
            end = Ok c) as Hkeep by (by destruct algo_class).
    rewrite Hkeep in Hinit. simpl in Hinit.
    destruct (Algorithm.Trainable_init _ _ _ _ _ _) as [[self0 heap0]|] eqn:Ht;
      simpl in Hinit; [|done].
    destruct (Algorithm.cls_training_iteration_is_int cls); [|done].
    injection Hinit as <- <-. by apply Trainable_init_config in Ht.
  - intros ->. unfold AlgorithmConfig.setattr in Hinit.
    destruct (AlgorithmConfig.is_frozen c) eqn:Hfrozen; simpl in Hinit; [done|].
    split; [done|].
    destruct (Algorithm.Trainable_init _ _ _ _ _ _) as [[self0 heap0]|] eqn:Ht;
      simpl in Hinit; [|done].
    destruct (Algorithm.cls_training_iteration_is_int cls); [|done].
    injection Hinit as <- <-. by apply Trainable_init_config in Ht.
Qed.

(** X10: a config object that already names its algorithm class is used as
    it is, only frozen; a config object without one gets the class of the
    algorithm being constructed, which requires that it is not frozen yet. *)
Theorem init_uses_config_object cls (c : AlgorithmConfig.t) heap self heap'
    (algo_class : PyVal) :
  AlgorithmConfig.getattr c "algo_class" = Ok algo_class ->
  init cls (Algorithm.ConfigObject c) heap = Ok (self, heap') ->
  (algo_class <> PyNone ->
   Algorithm.config self = AlgorithmConfig.freeze c) /\
  (algo_class = PyNone ->
   AlgorithmConfig.is_frozen c = false /\
   Algorithm.config self
   = AlgorithmConfig.mk
       (<["algo_class" := PyClass (Algorithm.cls_name cls)]> (AlgorithmConfig.attrs c))
       true).
Proof. apply init_config_object_result. Qed.

(** A frozen config object that names no algorithm class is refused: the
    constructor's assignment to [algo_class] raises. *)
Lemma init_frozen_generic_config_raises cls (c : AlgorithmConfig.t) heap :
  AlgorithmConfig.is_frozen c = true ->
  AlgorithmConfig.getattr c "algo_class" = Ok PyNone ->
  init cls (Algorithm.ConfigObject c) heap = Raise (AttributeError "algo_class").
Proof.
  intros Hfrozen Hac. rewrite init_config_object, Hac. simpl.
  unfold AlgorithmConfig.setattr. by rewrite Hfrozen.
Qed.

(** X11: constructed from a dictionary with at least one key, the algorithm
    holds the dictionary laid over the defaults: every key of the dictionary
    wins over the default of the same name, every other default stays
    ([algo_class] apart, which the constructor may fill in). *)
Theorem init_dict_overrides_defaults cls (d : gmap string PyVal) heap self heap'
    (k : string) :
  d <> ∅ ->
  init cls (Algorithm.ConfigDict d) heap = Ok (self, heap') ->
  k <> "algo_class" ->
  AlgorithmConfig.attrs (Algorithm.config self) !! k = (d ∪ default_attrs) !! k.
Proof.
  intros Hne Hinit Hk. rewrite (init_config_dict cls d heap Hne) in Hinit.
  set (c := AlgorithmConfig.mk (d ∪ default_attrs) false) in *.
  destruct (AlgorithmConfig.getattr c "algo_class") as [ac|] eqn:Hac.
  - destruct (init_config_object_result cls c heap self heap' ac Hac Hinit)
      as [Hset Hnone].
    assert (ac = PyNone \/ ac <> PyNone) as [->|Hother]
      by (destruct ac; first [by left | by right]).
    + destruct (Hnone eq_refl) as [_ ->]. simpl. by rewrite lookup_insert_ne.
    + by rewrite (Hset Hother).
  - rewrite init_config_object, Hac in Hinit. done.
Qed.

(** X12: [setup] with a config object changes nothing but the dataset and
    the client manager, which are both set when it returns; the object passed
    in is not even looked at. *)
Theorem setup_frame self (c : AlgorithmConfig.t) heap self' heap' :
  setup self (Algorithm.ConfigObject c) heap = Ok (self', heap') ->
  Algorithm.config self' = Algorithm.config self /\
  Algorithm.iteration self' = Algorithm.iteration self /\
  Algorithm.local_results self' = Algorithm.local_results self /\
  is_Some (Algorithm.dataset self') /\
  is_Some (Algorithm.client_manager self') /\
  forall c', setup self (Algorithm.ConfigObject c') heap = Ok (self', heap').
Proof.
  intros Hsetup. pose proof Hsetup as Hrun. revert Hrun.
  unfold Algorithm.setup at 1. simpl.
  destruct (AlgorithmConfig.getattr _ _) as [dc|]; simpl; [|done].
  destruct (len dc) as [n|]; simpl; [|done].
  destruct (0 <? n); simpl; [|done].
  destruct (get_dataset dc) as [dataset|]; simpl; [|done].
  destruct (get_client_config _) as [cc|]; simpl; [|done].
  destruct (client_manager_cls _ _ _) as [[manager heap0]|]; simpl; [|done].
  intros [= <- <-]. simpl.
  repeat split; try done; try by eexists.
Qed.

End LifecycleEdges.

Section SetupEdges.
Context {Scalar : Type} {ClientId : Type} `{Countable ClientId}.
Context (default_attrs : gmap string PyVal).
Context (get_client_config : AlgorithmConfig.t -> option PyVal).
Context (get_dataset : PyVal -> option (Algorithm.Dataset ClientId)).
Context (client_manager_cls :
  list ClientId -> PyVal -> gmap loc (Client.t ClientId) ->
  option (gmap ClientId loc * gmap loc (Client.t ClientId))).

Implicit Types (self : Algorithm.t Scalar ClientId).
Implicit Types (heap : gmap loc (Client.t ClientId)).

Local Abbreviation setup :=
  (Algorithm.setup default_attrs get_client_config get_dataset client_manager_cls).

(** X13: called with a plain dictionary that binds [dataset_config] to an
    empty mapping, [setup] raises the ValueError, whatever dataset the
    defaults or the algorithm's previous config name: the dictionary wins. *)
Theorem setup_dict_empty_dataset_config self (d : gmap string PyVal) heap :
  d !! "dataset_config" = Some (PyDict ∅) ->
  setup self (Algorithm.ConfigDict d) heap
  = Raise (ValueError "Dataset config must be provided").
Proof.
  intros Hd. rewrite setup_config_dict.
  rewrite update_from_dict_unfrozen by done. simpl.
  rewrite (setup_config_object _ _ _ _ _ _ _ ∅).
  - by rewrite bool_decide_eq_true_2.
  - unfold AlgorithmConfig.getattr. simpl.
    by rewrite (lookup_union_Some_l _ _ _ _ Hd).
Qed.

(** X14: a [dataset_config] that has no length (None, a number, a class) is
    not reported as a missing dataset config: [setup] raises the TypeError
    of [len], before the catalog is asked. *)
Theorem setup_unsized_dataset_config self (c : AlgorithmConfig.t) heap
    (dataset_config : PyVal) :
  AlgorithmConfig.getattr (Algorithm.config self) "dataset_config"
  = Ok dataset_config ->
  (forall d, dataset_config <> PyDict d) ->
  (forall s, dataset_config <> PyStr s) ->
  setup self (Algorithm.ConfigObject c) heap
  = Raise (TypeError "object has no len()").
Proof.
  intros Hdc Hdict Hstr. unfold Algorithm.setup. simpl. rewrite Hdc. simpl.
  destruct dataset_config; simpl; try done.
  - by destruct (Hstr s).
  - by destruct (Hdict d).
Qed.

End SetupEdges.

(** * Further properties of step *)
Section StepEdges.
Context {Scalar : Type} {ClientId : Type} `{Countable ClientId}.

Implicit Types (cls : Algorithm.Class Scalar ClientId).
Implicit Types (self : Algorithm.t Scalar ClientId).

(** With the evaluation interval 0, [step] raises ZeroDivisionError for
    every class: neither [training_step] nor [evaluate] gets to run. *)
Lemma step_zero_interval_raises cls self :
  AlgorithmConfig.getattr (Algorithm.config self) "evaluation_interval"
  = Ok (PyInt 0) ->
  Algorithm.step cls self = Raise ZeroDivisionError.
Proof. intros He. unfold Algorithm.step. by rewrite He. Qed.

(** X15: for an integer interval [e], positive or negative, the evaluation
    runs exactly on the iterations whose 1-based number i+1 is a multiple of
    [e]; with [e] = 0 every call raises ZeroDivisionError before training. *)
Theorem step_evaluates_on_multiples cls self (e : Z) :
  AlgorithmConfig.getattr (Algorithm.config self) "evaluation_interval"
  = Ok (PyInt e) ->
  (e = 0 -> Algorithm.step cls self = Raise ZeroDivisionError) /\
  (e <> 0 -> (e | Algorithm.iteration self + 1) ->
   Algorithm.step cls self = StepSpec.train_and_evaluate cls self) /\
  (e <> 0 -> ~ (e | Algorithm.iteration self + 1) ->
   Algorithm.step cls self = Algorithm.cls_training_step cls self).
Proof.
  intros He. split; [|split].
  - intros ->. by apply step_zero_interval_raises.
  - intros Hne Hdiv.
    destruct (step_unfold cls self (Some e) He) as [Hyes _]; [congruence|].
    apply Hyes. simpl. by apply Z.mod_divide.
  - intros Hne Hdiv.
    destruct (step_unfold cls self (Some e) He) as [_ Hno]; [congruence|].
    apply Hno. simpl. intros Hmod. apply Hdiv. by apply Z.mod_divide.
Qed.

(** X16: when the evaluation is due and both methods return mappings, a
    metric replaces a training result of the same name, and every other
    entry of either mapping is in the result. *)
Theorem step_metrics_override cls self (e : Z) results self1 metrics self2 :
  AlgorithmConfig.getattr (Algorithm.config self) "evaluation_interval"
  = Ok (PyInt e) ->
  e <> 0 ->
  (Algorithm.iteration self + 1) `mod` e = 0 ->
  Algorithm.cls_training_step cls self = Ok (results, self1) ->
  Algorithm.cls_evaluate cls self1 = Ok (Some metrics, self2) ->
  exists merged,
    Algorithm.step cls self = Ok (merged, self2) /\
    forall k, merged !! k = match metrics !! k with
                            | Some v => Some v
                            | None => results !! k
                            end.
Proof.
  intros He Hne Hdue Htrain Heval.
  destruct (step_unfold cls self (Some e) He) as [Hyes _]; [congruence|].
  exists (metrics ∪ results). split.
  - rewrite (Hyes Hdue). unfold StepSpec.train_and_evaluate.
    rewrite Htrain. simpl. by rewrite Heval.
  - intros k. rewrite lookup_union. by destruct (metrics !! k), (results !! k).
Qed.

(** X17: an exception of [training_step] is the exception of [step]; the
    evaluation does not run, due or not. *)
Theorem step_training_failure_propagates cls self (e : option Z) (err : Exn) :
  AlgorithmConfig.getattr (Algorithm.config self) "evaluation_interval"
  = Ok (StepSpec.interval_value e) ->
  e <> Some 0 ->
  Algorithm.cls_training_step cls self = Raise err ->
  Algorithm.step cls self = Raise err /\
  forall cls',
    Algorithm.cls_training_step cls' = Algorithm.cls_training_step cls ->
    Algorithm.step cls' self = Raise err.
Proof.
  intros He Hne Htrain.
  assert (forall cls', Algorithm.cls_training_step cls' self = Raise err ->
                       Algorithm.step cls' self = Raise err) as Hany.
  { intros cls' Hfail. unfold Algorithm.step. rewrite He.
    destruct e as [e|]; simpl.
    - unfold py_mod. destruct (Z.eqb_spec e 0) as [->|_]; [done|]. simpl.
      by rewrite Hfail.
    - by rewrite Hfail. }
  split; [by apply Hany|].
  intros cls' Hsame. apply Hany. by rewrite Hsame.
Qed.

End StepEdges.

(** * Further properties of the resource request and of the checkpoint *)
Section ResourceEdges.
Context (default_attrs : gmap string PyVal).

Implicit Types (config : gmap string PyVal).

(** X18: without remote workers (a count of zero or below) the request has
    the driver bundle alone, and the per-worker settings are never read: they
    may be missing altogether. *)
Theorem default_resource_request_no_workers config (cpu fake_gpus gpu : PyVal) (n : Z) :
  let cf := config ∪ default_attrs in
  cf !! "num_cpus_for_driver" = Some cpu ->
  cf !! "_fake_gpus" = Some fake_gpus ->
  (truthy fake_gpus = false -> cf !! "num_gpus_for_driver" = Some gpu) ->
  cf !! "num_remote_workers" = Some (PyInt n) ->
  n <= 0 ->
  Algorithm.default_resource_request default_attrs config
  = Ok {| Algorithm.bundles :=
            [ <["GPU" := if truthy fake_gpus then PyInt 0 else gpu]> {[ "CPU" := cpu ]} ];
          Algorithm.strategy :=
            default (PyStr "PACK") (config !! "placement_strategy") |}.
Proof.
  intros cf Hcpu Hfake Hgpu Hn Hle.
  unfold Algorithm.default_resource_request, getitem.
  change (config ∪ AlgorithmConfig.to_dict (Algorithm.get_default_config default_attrs))
    with cf.
  rewrite Hcpu, Hfake. simpl.
  assert ((if truthy fake_gpus then Ok (PyInt 0)
           else match cf !! "num_gpus_for_driver" with
                | Some v => Ok v
                | None => Raise (KeyError "num_gpus_for_driver")
                end)
          = Ok (if truthy fake_gpus then PyInt 0 else gpu)) as ->.
  { destruct (truthy fake_gpus); [done|]. by rewrite Hgpu. }
  simpl. rewrite Hn. simpl.
  by replace (Z.to_nat n) with O by lia.
Qed.

(** X19: the placement strategy comes from the dictionary passed in and from
    nowhere else: a [placement_strategy] among the defaults is not used, the
    request says "PACK" unless the dictionary itself names a strategy. *)
Theorem default_resource_request_strategy config request :
  Algorithm.default_resource_request default_attrs config = Ok request ->
  Algorithm.strategy request = default (PyStr "PACK") (config !! "placement_strategy") /\
  (config !! "placement_strategy" = None -> Algorithm.strategy request = PyStr "PACK").
Proof.
  unfold Algorithm.default_resource_request.
  destruct (getitem _ "num_cpus_for_driver") as [cpu|]; simpl; [|done].
  destruct (getitem _ "_fake_gpus") as [fake|]; simpl; [|done].
  match goal with
  | |- context [mbind _ ?m] => destruct m as [gpu|]; simpl; [|done]
  end.
  destruct (getitem _ "num_remote_workers") as [n|]; simpl; [|done].
  destruct (as_int n) as [count|]; simpl; [|done].
  destruct (Algorithm.comprehension _ _) as [workers|]; simpl; [|done].
  intros [= <-]. simpl. split; [done|]. by intros ->.
Qed.

(** X20: a custom resource named "CPU" or "GPU" replaces the per-worker
    count of that name in every worker bundle; the driver bundle keeps its
    own counts. *)
Theorem default_resource_request_custom_overrides config request
    (custom : gmap string PyVal) (name : string) (v : PyVal) :
  (config ∪ default_attrs) !! "custom_resources_per_worker" = Some (PyDict custom) ->
  custom !! name = Some v ->
  Algorithm.default_resource_request default_attrs config = Ok request ->
  exists driver workers,
    Algorithm.bundles request = driver :: workers /\
    Forall (fun worker => worker !! name = Some v) workers /\
    (name = "CPU" ->
     driver !! "CPU" = (config ∪ default_attrs) !! "num_cpus_for_driver").
Proof.
  intros Hcustom Hname. unfold Algorithm.default_resource_request, getitem.
  change (config ∪ AlgorithmConfig.to_dict (Algorithm.get_default_config default_attrs))
    with (config ∪ default_attrs).
  rewrite Hcustom.
  destruct ((config ∪ default_attrs) !! "num_cpus_for_driver") as [cpu|]; simpl; [|done].
  destruct ((config ∪ default_attrs) !! "_fake_gpus") as [fake|]; simpl; [|done].
  match goal with
  | |- context [mbind _ ?m] => destruct m as [gpu|]; simpl; [|done]
  end.
  destruct ((config ∪ default_attrs) !! "num_remote_workers") as [n|]; simpl; [|done].
  destruct (as_int n) as [count|]; simpl; [|done].
  generalize (Z.to_nat count). intros k.
  destruct ((config ∪ default_attrs) !! "num_cpus_per_worker") as [wcpu|]; simpl.
  2:{ destruct k; simpl; [|done]. intros [= <-]. simpl.
      eexists _, _. split; [done|]. split; [constructor|].
      intros _. rewrite lookup_insert_ne by done. by rewrite lookup_singleton_eq. }
  destruct ((config ∪ default_attrs) !! "num_gpus_per_worker") as [wgpu|]; simpl.
  2:{ destruct k; simpl; [|done]. intros [= <-]. simpl.
      eexists _, _. split; [done|]. split; [constructor|].
      intros _. rewrite lookup_insert_ne by done. by rewrite lookup_singleton_eq. }
  rewrite comprehension_ok. simpl. intros [= <-]. simpl.
  eexists _, _. split; [done|]. split.
  - apply Forall_replicate. by apply lookup_union_Some_l.
  - intros _. rewrite lookup_insert_ne by done. by rewrite lookup_singleton_eq.
Qed.

End ResourceEdges.

Section CheckpointEdges.
Context {Scalar : Type} {ClientId : Type} `{Countable ClientId}.
Context (can_open_wb : gmap string Algorithm.File -> string -> bool).

Implicit Types (self : Algorithm.t Scalar ClientId) (fs : gmap string Algorithm.File).

(** X21: a second checkpoint into the same directory replaces the state
    file: afterwards the file system is the one that the second checkpoint
    alone would have produced, and only the state of the second algorithm
    can be read back. *)
Theorem save_checkpoint_overwrites self self' (checkpoint_dir : string) fs :
  let state_file := Os.path_join checkpoint_dir "algorithm_state.pkl" in
  can_open_wb fs state_file = true ->
  can_open_wb (<[state_file := Algorithm.Pickle (Algorithm.__getstate__ self)]> fs)
    state_file = true ->
  Algorithm.save_checkpoint can_open_wb self checkpoint_dir fs
  ≫= (fun '(dir, fs1) => Algorithm.save_checkpoint can_open_wb self' dir fs1)
  = Ok (checkpoint_dir,
        <[state_file := Algorithm.Pickle (Algorithm.__getstate__ self')]> fs).
Proof.
  intros state_file Hopen Hopen'. unfold state_file in *.
  unfold Algorithm.save_checkpoint, Algorithm.open_and_dump.
  rewrite Hopen. simpl. rewrite Hopen'. simpl.
  by rewrite insert_insert_eq.
Qed.

End CheckpointEdges.

(** ** The further properties on the concrete federation *)

Lemma init_rejects_shadowed_training_iteration_witness :
  exists e,
    Algorithm.__init__ Scenario.default_attrs Scenario.get_client_config
      Scenario.get_dataset Scenario.client_manager_cls Scenario.Shadowing_cls
      Algorithm.NoConfig ∅ = Raise e.
Proof.
  apply (init_rejects_shadowed_training_iteration Scenario.default_attrs
           Scenario.get_client_config Scenario.get_dataset
           Scenario.client_manager_cls Scenario.Shadowing_cls Algorithm.NoConfig ∅).
  reflexivity.
Defined.

Lemma init_uses_config_object_witness :
  exists self heap',
    Algorithm.__init__ (Scalar := Z) Scenario.default_attrs Scenario.get_client_config
      Scenario.get_dataset Scenario.client_manager_cls Algorithm.Algorithm_cls
      (Algorithm.ConfigObject Scenario.unfrozen_config) ∅ = Ok (self, heap') /\
    AlgorithmConfig.is_frozen Scenario.unfrozen_config = false /\
    Algorithm.config self
    = AlgorithmConfig.mk
        (<["algo_class" := PyClass "Algorithm"]> Scenario.default_attrs) true.
Proof.
  eexists _, _. split; [reflexivity|].
  eapply (proj2 (init_uses_config_object (Scalar := Z) Scenario.default_attrs
                   Scenario.get_client_config Scenario.get_dataset
                   Scenario.client_manager_cls Algorithm.Algorithm_cls
                   Scenario.unfrozen_config ∅ _ _ PyNone eq_refl eq_refl)).
  reflexivity.
Defined.

Lemma init_frozen_generic_config_raises_witness :
  Algorithm.__init__ (Scalar := Z) Scenario.default_attrs Scenario.get_client_config
    Scenario.get_dataset Scenario.client_manager_cls Algorithm.Algorithm_cls
    (Algorithm.ConfigObject (AlgorithmConfig.freeze Scenario.unfrozen_config)) ∅
  = Raise (AttributeError "algo_class").
Proof.
  apply (init_frozen_generic_config_raises (Scalar := Z) Scenario.default_attrs
           Scenario.get_client_config Scenario.get_dataset
           Scenario.client_manager_cls Algorithm.Algorithm_cls
           (AlgorithmConfig.freeze Scenario.unfrozen_config) ∅);
    reflexivity.
Defined.

Lemma init_dict_overrides_defaults_witness :
  exists self heap',
    Algorithm.__init__ (Scalar := Z) Scenario.default_attrs Scenario.get_client_config
      Scenario.get_dataset Scenario.client_manager_cls Algorithm.Algorithm_cls
      (Algorithm.ConfigDict Scenario.worker_config) ∅ = Ok (self, heap') /\
    AlgorithmConfig.attrs (Algorithm.config self) !! "num_remote_workers"
    = (Scenario.worker_config ∪ Scenario.default_attrs) !! "num_remote_workers".
Proof.
  eexists _, _. split; [reflexivity|].
  eapply (init_dict_overrides_defaults (Scalar := Z) Scenario.default_attrs
            Scenario.get_client_config Scenario.get_dataset
            Scenario.client_manager_cls Algorithm.Algorithm_cls
            Scenario.worker_config ∅ _ _ "num_remote_workers").
  - apply insert_non_empty.
  - reflexivity.
  - discriminate.
Defined.

Lemma setup_frame_witness :
  exists self' heap',
    Algorithm.setup Scenario.default_attrs Scenario.get_client_config
      Scenario.get_dataset Scenario.client_manager_cls
      (Scenario.stepping PyNone 4) (Algorithm.ConfigObject Scenario.config) ∅
    = Ok (self', heap') /\
    Algorithm.iteration self' = 4.
Proof.
  eexists _, _. split; [reflexivity|].
  eapply (proj1 (proj2 (setup_frame Scenario.default_attrs
                          Scenario.get_client_config Scenario.get_dataset
                          Scenario.client_manager_cls (Scenario.stepping PyNone 4)
                          Scenario.config ∅ _ _ eq_refl))).
Defined.

Lemma setup_dict_empty_dataset_config_witness :
  Algorithm.setup Scenario.default_attrs Scenario.get_client_config
    Scenario.get_dataset Scenario.client_manager_cls
    (Scenario.stepping PyNone 0)
    (Algorithm.ConfigDict {[ "dataset_config" := PyDict ∅ ]}) ∅
  = Raise (ValueError "Dataset config must be provided").
Proof.
  apply (setup_dict_empty_dataset_config Scenario.default_attrs
           Scenario.get_client_config Scenario.get_dataset
           Scenario.client_manager_cls (Scenario.stepping PyNone 0)
           {[ "dataset_config" := PyDict ∅ ]} ∅).
  reflexivity.
Defined.

Lemma setup_unsized_dataset_config_witness :
  Algorithm.setup Scenario.default_attrs Scenario.get_client_config
    Scenario.get_dataset Scenario.client_manager_cls
    Scenario.undated (Algorithm.ConfigObject Scenario.config) ∅
  = Raise (TypeError "object has no len()").
Proof.
  apply (setup_unsized_dataset_config Scenario.default_attrs
           Scenario.get_client_config Scenario.get_dataset
           Scenario.client_manager_cls Scenario.undated Scenario.config ∅ PyNone).
  - reflexivity.
  - discriminate.
  - discriminate.
Defined.

Lemma step_zero_interval_raises_witness :
  Algorithm.step Scenario.Evaluating_cls (Scenario.stepping (PyInt 0) 5)
  = Raise ZeroDivisionError.
Proof.
  apply (step_zero_interval_raises Scenario.Evaluating_cls
           (Scenario.stepping (PyInt 0) 5)).
  reflexivity.
Defined.

Lemma step_evaluates_on_multiples_witness :
  Algorithm.step Scenario.Evaluating_cls (Scenario.stepping (PyInt (-2)) 3)
  = StepSpec.train_and_evaluate Scenario.Evaluating_cls
      (Scenario.stepping (PyInt (-2)) 3).
Proof.
  apply (proj1 (proj2 (step_evaluates_on_multiples Scenario.Evaluating_cls
                         (Scenario.stepping (PyInt (-2)) 3) (-2) eq_refl))).
  - discriminate.
  - exists (-2). reflexivity.
Defined.

Lemma step_metrics_override_witness :
  exists merged,
    Algorithm.step Scenario.Shadowing_cls (Scenario.stepping (PyInt 2) 3)
    = Ok (merged, Scenario.stepping (PyInt 2) 3) /\
    forall k, merged !! k
              = match ({[ "loss" := PyInt 9 ]} : gmap string PyVal) !! k with
                | Some v => Some v
                | None => ({[ "loss" := PyInt 7 ]} : gmap string PyVal) !! k
                end.
Proof.
  apply (step_metrics_override Scenario.Shadowing_cls
           (Scenario.stepping (PyInt 2) 3) 2 {[ "loss" := PyInt 7 ]}
           (Scenario.stepping (PyInt 2) 3) {[ "loss" := PyInt 9 ]}
           (Scenario.stepping (PyInt 2) 3)).
  - reflexivity.
  - discriminate.
  - reflexivity.
  - reflexivity.
  - reflexivity.
Defined.

Lemma step_training_failure_propagates_witness :
  Algorithm.step Scenario.Failing_cls (Scenario.stepping (PyInt 2) 3)
  = Raise (RuntimeError "worker died").
Proof.
  apply (proj1 (step_training_failure_propagates Scenario.Failing_cls
                  (Scenario.stepping (PyInt 2) 3) (Some 2)
                  (RuntimeError "worker died") eq_refl ltac:(discriminate) eq_refl)).
Defined.

Lemma default_resource_request_no_workers_witness :
  Algorithm.default_resource_request Scenario.default_attrs
    {[ "num_remote_workers" := PyInt (-1) ]}
  = Ok {| Algorithm.bundles := [ <["GPU" := PyInt 0]> {[ "CPU" := PyInt 1 ]} ];
          Algorithm.strategy := PyStr "PACK" |}.
Proof.
  etransitivity.
  - apply (default_resource_request_no_workers Scenario.default_attrs
             {[ "num_remote_workers" := PyInt (-1) ]}
             (PyInt 1) (PyBool false) (PyInt 0) (-1)).
    + reflexivity.
    + reflexivity.
    + intros _. reflexivity.
    + reflexivity.
    + discriminate.
  - vm_compute. reflexivity.
Defined.

Lemma default_resource_request_strategy_witness :
  exists request,
    Algorithm.default_resource_request Scenario.spreading_attrs Scenario.worker_config
    = Ok request /\
    Algorithm.strategy request = PyStr "PACK".
Proof.
  eexists. split; [reflexivity|].
  apply (proj2 (default_resource_request_strategy Scenario.spreading_attrs
                  Scenario.worker_config _ eq_refl)).
  reflexivity.
Defined.

Lemma default_resource_request_custom_overrides_witness :
  exists request driver workers,
    Algorithm.default_resource_request Scenario.default_attrs Scenario.greedy_config
    = Ok request /\
    Algorithm.bundles request = driver :: workers /\
    Forall (fun worker => worker !! "CPU" = Some (PyInt 8)) workers /\
    driver !! "CPU" = Some (PyInt 1).
Proof.
  eexists.
  destruct (default_resource_request_custom_overrides Scenario.default_attrs
              Scenario.greedy_config
              {| Algorithm.bundles :=
                   [ <["GPU" := PyInt 0]> {[ "CPU" := PyInt 1 ]};
                     {[ "CPU" := PyInt 8 ]}
                     ∪ <["GPU" := PyInt 0]> {[ "CPU" := PyInt 1 ]} ];
                 Algorithm.strategy := PyStr "PACK" |}
              {[ "CPU" := PyInt 8 ]} "CPU" (PyInt 8))
    as (driver & workers & Hbundles & Hall & Hdriver).
  - vm_compute. reflexivity.
  - reflexivity.
  - vm_compute. reflexivity.
  - exists driver, workers. split; [reflexivity|].
    split; [exact Hbundles|]. split; [exact Hall|]. exact (Hdriver eq_refl).
Defined.

Lemma save_checkpoint_overwrites_witness :
  Algorithm.save_checkpoint Scenario.can_open_wb
    (Scenario.algorithm Scenario.full_round) "ckpt/" ∅
  ≫= (fun '(dir, fs1) =>
        Algorithm.save_checkpoint Scenario.can_open_wb
          (Scenario.stepping (PyInt 2) 3) dir fs1)
  = Ok ("ckpt/",
        {[ "ckpt/algorithm_state.pkl"
           := Algorithm.Pickle (Algorithm.__getstate__ (Scenario.stepping (PyInt 2) 3)) ]}).
Proof.
  apply (save_checkpoint_overwrites Scenario.can_open_wb
           (Scenario.algorithm Scenario.full_round) (Scenario.stepping (PyInt 2) 3)
           "ckpt/" ∅).
  - reflexivity.
  - reflexivity.
Defined.
